(** * MoviesStore: a shallow embedding of the catalog store

    The store of [src/src/stores/MoviesStore.tsx] (MobX class [MoviesStore])
    is embedded as an explicit state record.  Every asynchronous method is a
    computation in a small monad that threads the store, logs every HTTP
    request together with the store as it stood when the request was issued,
    and propagates JavaScript exceptions (the [try]/[catch] of the source).

    The remote API is an oracle [Net]: the reply to the n-th request of a run
    is [net_list net n req] (resp. [net_detail], [net_post]), so a theorem
    quantified over [net] covers every behaviour of the server and of the
    transport.  Strings are ASCII strings. *)

From Stdlib Require Import String Ascii ZArith List Bool Lia.
From Stdlib Require Import Sorting.Permutation Sorting.Sorted.
Import ListNotations.
Open Scope string_scope.
Open Scope list_scope.
Open Scope Z_scope.

(* ------------------------------------------------------------------ *)
(** ** Small string helpers (JavaScript string primitives on ASCII) *)

Definition asc (n : nat) : ascii := ascii_of_nat n.

(** Decimal rendering of a non-negative integer ([String(n)]). *)
Fixpoint dec_fuel (fuel : nat) (n : Z) (acc : string) : string :=
  match fuel with
  | O => acc
  | S f =>
      let acc' := String (asc (48 + Z.to_nat (n mod 10))) acc in
      if n <? 10 then acc' else dec_fuel f (n / 10) acc'
  end.

Definition z_to_dec (n : Z) : string :=
  if n <? 0 then ("-" ++ dec_fuel 64 (- n) "")%string else dec_fuel 64 n "".

(** Left padding with zeros up to [w] characters (moment's [YYYY], [MM], [DD]). *)
Fixpoint zeros (k : nat) : string :=
  match k with O => EmptyString | S k' => String "0" (zeros k') end.

Definition pad0 (w : nat) (s : string) : string :=
  (zeros (w - String.length s) ++ s)%string.

(* ------------------------------------------------------------------ *)
(** ** Local dates and the DateUtil helpers (src/unnamed/part_004)

    [DateUtil] wraps moment.js: [moment()] is the current local date,
    [add]/[subtract] with ['days'] moves along the day count and
    [add] with ['months'] moves the month and clamps the day to the length
    of the target month.  The calendar is the proleptic Gregorian one. *)

Record LocalDate := { year : Z; month : Z; day : Z }.

Definition days_from_civil (d : LocalDate) : Z :=
  let y := if month d <=? 2 then year d - 1 else year d in
  let era := y / 400 in
  let yoe := y - era * 400 in
  let mp := (month d + 9) mod 12 in
  let doy := (153 * mp + 2) / 5 + day d - 1 in
  let doe := yoe * 365 + yoe / 4 - yoe / 100 + doy in
  era * 146097 + doe - 719468.

(** Day [doe] of a 400-year era (counted from March 1st of year 0 of the
    era): year of era, day of year, March-based month, day and month. *)
Definition yoe_of (doe : Z) : Z := (doe - doe / 1460 + doe / 36524 - doe / 146096) / 365.
Definition doy_of (doe yoe : Z) : Z := doe - (365 * yoe + yoe / 4 - yoe / 100).
Definition mp_of (doy : Z) : Z := (5 * doy + 2) / 153.
Definition day_of (doy mp : Z) : Z := doy - (153 * mp + 2) / 5 + 1.
Definition month_of (mp : Z) : Z := if mp <? 10 then mp + 3 else mp - 9.

Definition civil_from_days (z0 : Z) : LocalDate :=
  let z := z0 + 719468 in
  let era := z / 146097 in
  let doe := z - era * 146097 in
  let yoe := yoe_of doe in
  let doy := doy_of doe yoe in
  let mp := mp_of doy in
  let y := yoe + era * 400 in
  let m := month_of mp in
  {| year := if m <=? 2 then y + 1 else y; month := m; day := day_of doy mp |}.

(** The facts on one era that make [days_from_civil] undo [civil_from_days]. *)
Definition civil_check (doe : Z) : bool :=
  let yoe := yoe_of doe in
  let doy := doy_of doe yoe in
  let mp := mp_of doy in
  (0 <=? yoe) && (yoe <? 400) && ((month_of mp + 9) mod 12 =? mp)
  && (yoe * 365 + yoe / 4 - yoe / 100 + ((153 * mp + 2) / 5 + day_of doy mp - 1) =? doe).

Fixpoint all_from (f : Z -> bool) (k : Z) (fuel : nat) : bool :=
  match fuel with
  | O => true
  | S n => f k && all_from f (k + 1) n
  end.

Definition is_leap (y : Z) : bool :=
  ((y mod 4 =? 0) && negb (y mod 100 =? 0)) || (y mod 400 =? 0).

Definition days_in_month (y m : Z) : Z :=
  if m =? 2 then (if is_leap y then 29 else 28)
  else if (m =? 4) || (m =? 6) || (m =? 9) || (m =? 11) then 30 else 31.

(** [moment(d).add(n, 'days')] *)
Definition add_days (d : LocalDate) (n : Z) : LocalDate :=
  civil_from_days (days_from_civil d + n).

(** [moment(d).add(k, 'months')] *)
Definition add_months (d : LocalDate) (k : Z) : LocalDate :=
  let total := year d * 12 + (month d - 1) + k in
  let y := total / 12 in
  let m := total mod 12 + 1 in
  {| year := y; month := m; day := Z.min (day d) (days_in_month y m) |}.

(** [.format('YYYY-MM-DD')] *)
Definition format_ymd (d : LocalDate) : string :=
  (pad0 4 (z_to_dec (year d)) ++ "-" ++ pad0 2 (z_to_dec (month d)) ++ "-"
   ++ pad0 2 (z_to_dec (day d)))%string.

Module DateUtil.
(** Each helper reads the clock through [moment()]; [today] is the local
    date that [moment()] returns while the request is being built. *)

Definition getCurrentDateFormatted (today : LocalDate) : string :=
  format_ymd today.

Definition getDateDaysAgo (today : LocalDate) (days : Z) : string :=
  format_ymd (add_days today (- days)).

Definition getDateDaysFromNow (today : LocalDate) (days : Z) : string :=
  format_ymd (add_days today days).

Definition getDateMonthsFromNow (today : LocalDate) (months : Z) : string :=
  format_ymd (add_months today months).
End DateUtil.

(* ------------------------------------------------------------------ *)
(** ** Data model (interfaces [Movie], [MovieDetail], [MovieResponse],
    [UserProfile]) *)

(** [vote_average] (a float) is read by no operation modelled here and is
    left out.  [release_date] and [original_title] may be absent
    ([undefined]/[null]), hence the option. *)
Record Movie := {
  id : Z;
  title : string;
  poster_path : string;
  backdrop_path : string;
  release_date : option string;
  overview : string;
  genre_ids : list Z;
  original_title : option string
}.

Record MovieDetail := {
  detail_movie : Movie;
  genres : list (Z * string);
  runtime : Z;
  status : string;
  tagline : string;
  original_language : string
}.

(** [MovieResponse]; [results] is [None] when the body carries no array. *)
Record MovieResponse := {
  page : Z;
  results : option (list Movie);
  total_pages : Z;
  total_results : Z
}.

Record UserProfile := { profile_id : Z; name : string; username : string }.

Inductive MovieCategory := now_playing | upcoming | popular | search.

(** Keys of the [loading] and [error] objects: [MovieCategory | 'profile']. *)
Inductive StateKey := Cat (c : MovieCategory) | profile.

Definition category_eqb (a b : MovieCategory) : bool :=
  match a, b with
  | now_playing, now_playing | upcoming, upcoming
  | popular, popular | search, search => true
  | _, _ => false
  end.

Definition key_eqb (a b : StateKey) : bool :=
  match a, b with
  | Cat x, Cat y => category_eqb x y
  | profile, profile => true
  | _, _ => false
  end.

(** The fields of class [MoviesStore]. *)
Record Store := {
  nowPlayingMovies : list Movie;
  upcomingMovies : list Movie;
  popularMovies : list Movie;
  watchlistMovies : list Movie;
  userProfile : option UserProfile;
  loading : StateKey -> bool;
  error : StateKey -> option string;
  currentPage : MovieCategory -> Z;
  totalPages : MovieCategory -> Z;
  currentMovieDetail : option MovieDetail
}.

Definition initialStore : Store := {|
  nowPlayingMovies := []; upcomingMovies := []; popularMovies := [];
  watchlistMovies := []; userProfile := None;
  loading := fun _ => false; error := fun _ => None;
  currentPage := fun _ => 1; totalPages := fun _ => 0;
  currentMovieDetail := None |}.

(** Assignments to the fields, as written inside [runInAction]. *)
Definition upd_key {A} (f : StateKey -> A) (k : StateKey) (v : A) : StateKey -> A :=
  fun k' => if key_eqb k k' then v else f k'.

Definition upd_cat {A} (f : MovieCategory -> A) (c : MovieCategory) (v : A)
  : MovieCategory -> A :=
  fun c' => if category_eqb c c' then v else f c'.

Definition set_loading (k : StateKey) (b : bool) (s : Store) : Store :=
  {| nowPlayingMovies := nowPlayingMovies s; upcomingMovies := upcomingMovies s;
     popularMovies := popularMovies s; watchlistMovies := watchlistMovies s;
     userProfile := userProfile s; loading := upd_key (loading s) k b;
     error := error s; currentPage := currentPage s; totalPages := totalPages s;
     currentMovieDetail := currentMovieDetail s |}.

Definition set_error (k : StateKey) (e : option string) (s : Store) : Store :=
  {| nowPlayingMovies := nowPlayingMovies s; upcomingMovies := upcomingMovies s;
     popularMovies := popularMovies s; watchlistMovies := watchlistMovies s;
     userProfile := userProfile s; loading := loading s;
     error := upd_key (error s) k e; currentPage := currentPage s;
     totalPages := totalPages s; currentMovieDetail := currentMovieDetail s |}.

Definition set_currentPage (c : MovieCategory) (v : Z) (s : Store) : Store :=
  {| nowPlayingMovies := nowPlayingMovies s; upcomingMovies := upcomingMovies s;
     popularMovies := popularMovies s; watchlistMovies := watchlistMovies s;
     userProfile := userProfile s; loading := loading s; error := error s;
     currentPage := upd_cat (currentPage s) c v; totalPages := totalPages s;
     currentMovieDetail := currentMovieDetail s |}.

Definition set_totalPages (c : MovieCategory) (v : Z) (s : Store) : Store :=
  {| nowPlayingMovies := nowPlayingMovies s; upcomingMovies := upcomingMovies s;
     popularMovies := popularMovies s; watchlistMovies := watchlistMovies s;
     userProfile := userProfile s; loading := loading s; error := error s;
     currentPage := currentPage s; totalPages := upd_cat (totalPages s) c v;
     currentMovieDetail := currentMovieDetail s |}.

Definition set_nowPlayingMovies (l : list Movie) (s : Store) : Store :=
  {| nowPlayingMovies := l; upcomingMovies := upcomingMovies s;
     popularMovies := popularMovies s; watchlistMovies := watchlistMovies s;
     userProfile := userProfile s; loading := loading s; error := error s;
     currentPage := currentPage s; totalPages := totalPages s;
     currentMovieDetail := currentMovieDetail s |}.

Definition set_upcomingMovies (l : list Movie) (s : Store) : Store :=
  {| nowPlayingMovies := nowPlayingMovies s; upcomingMovies := l;
     popularMovies := popularMovies s; watchlistMovies := watchlistMovies s;
     userProfile := userProfile s; loading := loading s; error := error s;
     currentPage := currentPage s; totalPages := totalPages s;
     currentMovieDetail := currentMovieDetail s |}.

Definition set_popularMovies (l : list Movie) (s : Store) : Store :=
  {| nowPlayingMovies := nowPlayingMovies s; upcomingMovies := upcomingMovies s;
     popularMovies := l; watchlistMovies := watchlistMovies s;
     userProfile := userProfile s; loading := loading s; error := error s;
     currentPage := currentPage s; totalPages := totalPages s;
     currentMovieDetail := currentMovieDetail s |}.

Definition set_watchlistMovies (l : list Movie) (s : Store) : Store :=
  {| nowPlayingMovies := nowPlayingMovies s; upcomingMovies := upcomingMovies s;
     popularMovies := popularMovies s; watchlistMovies := l;
     userProfile := userProfile s; loading := loading s; error := error s;
     currentPage := currentPage s; totalPages := totalPages s;
     currentMovieDetail := currentMovieDetail s |}.

Definition set_currentMovieDetail (d : option MovieDetail) (s : Store) : Store :=
  {| nowPlayingMovies := nowPlayingMovies s; upcomingMovies := upcomingMovies s;
     popularMovies := popularMovies s; watchlistMovies := watchlistMovies s;
     userProfile := userProfile s; loading := loading s; error := error s;
     currentPage := currentPage s; totalPages := totalPages s;
     currentMovieDetail := d |}.

(* ------------------------------------------------------------------ *)
(** ** Requests, replies and exceptions *)

Inductive HttpMethod := GET | POST.

(** Values of the [params] object (and of the POST body). *)
Inductive Param := PStr (s : string) | PNum (n : Z) | PBool (b : bool).

Record Request := { method : HttpMethod; url : string; params : list (string * Param) }.

(** What a [catch] block can receive. *)
Inductive Exn :=
| AxiosError (message : string) (response_status : option Z)
| TypeError                     (* a property read on [undefined] *)
| PlainError (message : string). (* [throw new Error(message)] *)

(** [axios.isAxiosError(error) ? error.message || `Error ${error.response?.status}`
      : 'Unknown error'] *)
Definition errorMessage (e : Exn) : string :=
  match e with
  | AxiosError m st =>
      if String.eqb m "" then
        ("Error " ++ match st with Some n => z_to_dec n | None => "undefined" end)%string
      else m
  | _ => "Unknown error"
  end.

(** JavaScript values, for the [success] field of a watchlist POST reply. *)
Inductive JsVal := JUndefined | JNull | JBool (b : bool) | JNum (n : Z) | JStr (s : string).

Definition truthy (v : JsVal) : bool :=
  match v with
  | JBool b => b
  | JNum n => negb (n =? 0)
  | JStr s => negb (String.eqb s "")
  | JUndefined | JNull => false
  end.

(** The body of a watchlist POST reply; [None] for a [null] body. *)
Definition PostData := option JsVal.

(** [response.data?.success] *)
Definition success_of (d : PostData) : JsVal :=
  match d with Some v => v | None => JUndefined end.

(** A settled axios promise: resolved with the data, or rejected. *)
Inductive Res (A : Type) := Normal (a : A) | Thrown (e : Exn).
Arguments Normal {A} a.
Arguments Thrown {A} e.

(** The server and the transport, as seen by the n-th request of a run. *)
Record Net := {
  net_list : nat -> Request -> Res MovieResponse;
  net_detail : nat -> Request -> Res MovieDetail;
  net_post : nat -> Request -> Res PostData
}.

(* ------------------------------------------------------------------ *)
(** ** The store monad: state, request log, exceptions *)

Record World := { store : Store; requests : list (Request * Store) }.

Definition M (A : Type) := World -> World * Res A.

Definition ret {A} (a : A) : M A := fun w => (w, Normal a).

Definition bind {A B} (m : M A) (k : A -> M B) : M B :=
  fun w => match m w with
           | (w', Normal a) => k a w'
           | (w', Thrown e) => (w', Thrown e)
           end.

Notation "x <- m ;; k" := (bind m (fun x => k))
  (at level 61, m at next level, right associativity).
Notation "m ;;; k" := (bind m (fun _ => k)) (at level 61, right associativity).

Definition throw {A} (e : Exn) : M A := fun w => (w, Thrown e).

Definition try_catch {A} (m : M A) (h : Exn -> M A) : M A :=
  fun w => match m w with
           | (w', Thrown e) => h e w'
           | r => r
           end.

Definition get_store : M Store := fun w => (w, Normal (store w)).

(** [runInAction(() => { ... })]: a synchronous batch of assignments. *)
Definition runInAction (f : Store -> Store) : M unit :=
  fun w => ({| store := f (store w); requests := requests w |}, Normal tt).

(** Issuing a request: logged with the store at that moment; the reply is
    the oracle's answer to the request's position in the log. *)
Definition issue {A} (oracle : nat -> Request -> Res A) (req : Request) : M A :=
  fun w => ({| store := store w; requests := requests w ++ [(req, store w)] |},
            oracle (length (requests w)) req).

(* ------------------------------------------------------------------ *)
(** ** The store's methods *)

Definition discoverRequest (ps : list (string * Param)) : Request :=
  {| method := GET; url := "/discover/movie"; params := ps |}.

(** The [switch (category)] of [fetchMoviesByCategory]; [None] is the
    [default: throw new Error('Invalid category')] branch. *)
Definition categoryRequest (today : LocalDate) (category : MovieCategory) (pg : Z)
  : option Request :=
  match category with
  | now_playing =>
      let pastDateStr := DateUtil.getDateDaysAgo today 60 in
      let currentDateStr := DateUtil.getCurrentDateFormatted today in
      Some (discoverRequest
        [("include_adult", PBool false); ("include_video", PBool false);
         ("language", PStr "en-US"); ("page", PNum pg);
         ("sort_by", PStr "popularity.desc"); ("with_release_type", PStr "2|3");
         ("release_date.gte", PStr pastDateStr);
         ("release_date.lte", PStr currentDateStr)])
  | upcoming =>
      let tomorrowStr := DateUtil.getDateDaysFromNow today 1 in
      let maxDateStr := DateUtil.getDateMonthsFromNow today 2 in
      Some (discoverRequest
        [("include_adult", PBool false); ("include_video", PBool false);
         ("language", PStr "en-US"); ("page", PNum pg);
         ("sort_by", PStr "popularity.desc"); ("with_release_type", PStr "2|3");
         ("release_date.gte", PStr tomorrowStr);
         ("release_date.lte", PStr maxDateStr)])
  | _ => None
  end.

Definition markLoading (k : StateKey) (s : Store) : Store :=
  set_error k None (set_loading k true s).

Definition markFailed (k : StateKey) (msg : string) (s : Store) : Store :=
  set_error k (Some msg) (set_loading k false s).

Definition isInWatchlist (movieId : Z) (s : Store) : bool :=
  existsb (fun movie => id movie =? movieId) (watchlistMovies s).

Definition watchlistRequest (movieId : Z) (add : bool) : Request :=
  {| method := POST; url := "/account/21896145/watchlist";
     params := [("media_type", PStr "movie"); ("media_id", PNum movieId);
                ("watchlist", PBool add)] |}.

Definition detailRequest (movieId : Z) : Request :=
  {| method := GET;
     url := ("/movie/" ++ z_to_dec movieId
             ++ "?language=en-US&append_to_response=credits")%string;
     params := [] |}.

Definition watchlistPageRequest (pg : Z) (sortBy : string) : Request :=
  {| method := GET;
     url := ("/account/21896145/watchlist/movies?language=en-US&page="
             ++ z_to_dec pg ++ "&sort_by=" ++ sortBy)%string;
     params := [] |}.

Definition popularSortedRequest (sortBy : string) : Request :=
  discoverRequest
    [("include_adult", PBool false); ("include_video", PBool false);
     ("language", PStr "en-US"); ("page", PNum 1); ("sort_by", PStr sortBy)].

(** [Object.keys(this.currentPage)] *)
Definition currentPageKeys : list MovieCategory := [now_playing; upcoming; popular; search].

Section Methods.

Variable net : Net.

Definition fetchMoviesByCategory (today : LocalDate) (category : MovieCategory) (pg : Z)
  : M unit :=
  runInAction (markLoading (Cat category));;;
  try_catch
    (match categoryRequest today category pg with
     | None => throw (PlainError "Invalid category")
     | Some req =>
         response <- issue (net_list net) req;;
         (* [response.data.results.length] in the sample log *)
         match results response with
         | None => throw TypeError
         | Some rs =>
             runInAction (fun s =>
               let s := match category with
                        | now_playing => set_nowPlayingMovies rs s
                        | upcoming => set_upcomingMovies rs s
                        | _ => s
                        end in
               let s := set_currentPage category (page response) s in
               let s := set_totalPages category (total_pages response) s in
               set_loading (Cat category) false s)
         end
     end)
    (fun e => runInAction (markFailed (Cat category) (errorMessage e))).

Definition fetchNowPlayingMovies (today : LocalDate) (forceRefresh : bool) : M unit :=
  s <- get_store;;
  if (0 <? Z.of_nat (length (nowPlayingMovies s))) && negb forceRefresh then ret tt
  else fetchMoviesByCategory today now_playing 1.

Definition fetchUpcomingMovies (today : LocalDate) (forceRefresh : bool) : M unit :=
  s <- get_store;;
  if (0 <? Z.of_nat (length (upcomingMovies s))) && negb forceRefresh then ret tt
  else fetchMoviesByCategory today upcoming 1.

Definition fetchPopularMoviesSorted (sortBy : string) : M unit :=
  runInAction (markLoading (Cat popular));;;
  try_catch
    (response <- issue (net_list net) (popularSortedRequest sortBy);;
     (* [response.data.results.length] in the success log *)
     match results response with
     | None => throw TypeError
     | Some rs =>
         runInAction (fun s => set_loading (Cat popular) false (set_popularMovies rs s))
     end)
    (fun _ => runInAction (markFailed (Cat popular) "Failed to fetch sorted movies")).

Definition fetchPopularMovies (forceRefresh : bool) : M unit :=
  s <- get_store;;
  if (0 <? Z.of_nat (length (popularMovies s))) && negb forceRefresh then ret tt
  else fetchPopularMoviesSorted "popularity.desc".

Definition clearCache : M unit :=
  runInAction (fun s =>
    let s := set_nowPlayingMovies [] s in
    let s := set_upcomingMovies [] s in
    let s := set_popularMovies [] s in
    fold_left (fun s category => set_totalPages category 0 (set_currentPage category 1 s))
      currentPageKeys s).

Definition getMovieDetails (movieId : Z) : M (option MovieDetail) :=
  runInAction (markLoading (Cat search));;;
  try_catch
    (d <- issue (net_detail net) (detailRequest movieId);;
     runInAction (fun s => set_loading (Cat search) false (set_currentMovieDetail (Some d) s));;;
     ret (Some d))
    (fun e => runInAction (markFailed (Cat search) (errorMessage e));;; ret None).

Definition fetchWatchlist (pg : Z) (sortBy : string) : M (list Movie) :=
  runInAction (markLoading (Cat search));;;
  try_catch
    (response <- issue (net_list net) (watchlistPageRequest pg sortBy);;
     runInAction (fun s =>
       let s := match results response with
                | Some rs => set_watchlistMovies rs s
                | None => set_watchlistMovies [] s
                end in
       set_loading (Cat search) false s);;;
     ret (match results response with Some rs => rs | None => [] end))
    (fun e => runInAction (markFailed (Cat search) (errorMessage e));;;
              s <- get_store;; ret (watchlistMovies s)).

Definition addToWatchlist (movie : Movie) : M bool :=
  s <- get_store;;
  if isInWatchlist (id movie) s then ret false
  else try_catch
         (response <- issue (net_post net) (watchlistRequest (id movie) true);;
          if truthy (success_of response) then
            runInAction (fun s => set_watchlistMovies (watchlistMovies s ++ [movie]) s);;;
            ret true
          else ret false)
         (fun _ => ret false).

Definition removeFromWatchlist (movieId : Z) : M bool :=
  s <- get_store;;
  match find (fun m => id m =? movieId) (watchlistMovies s) with
  | None => ret false
  | Some _ =>
      try_catch
        (response <- issue (net_post net) (watchlistRequest movieId false);;
         if truthy (success_of response) then
           runInAction (fun s =>
             set_watchlistMovies
               (filter (fun movie => negb (id movie =? movieId)) (watchlistMovies s)) s);;;
           ret true
         else ret false)
        (fun _ => ret false)
  end.

Definition toggleWatchlist (movie : Movie) : M bool :=
  s <- get_store;;
  if isInWatchlist (id movie) s then
    removed <- removeFromWatchlist (id movie);;
    ret (negb removed)
  else addToWatchlist movie.

End Methods.

(* ------------------------------------------------------------------ *)
(** ** String primitives used by [searchMovies] *)

(** White space removed by [String.prototype.trim] (the Latin-1 part). *)
Definition is_ws (c : ascii) : bool :=
  let n := nat_of_ascii c in
  ((9 <=? n) && (n <=? 13))%nat || (n =? 32)%nat || (n =? 160)%nat.

Fixpoint trim_start (s : string) : string :=
  match s with
  | String c rest => if is_ws c then trim_start rest else s
  | EmptyString => EmptyString
  end.

Definition reverse_string (s : string) : string :=
  string_of_list_ascii (rev (list_ascii_of_string s)).

(** [s.trim()] *)
Definition trim (s : string) : string :=
  reverse_string (trim_start (reverse_string (trim_start s))).

Definition lower_char (c : ascii) : ascii :=
  let n := nat_of_ascii c in
  if ((65 <=? n) && (n <=? 90))%nat then ascii_of_nat (n + 32) else c.

(** [s.toLowerCase()] *)
Fixpoint lower (s : string) : string :=
  match s with
  | String c rest => String (lower_char c) (lower rest)
  | EmptyString => EmptyString
  end.

(** [s.split(sep)] for a one-character separator. *)
Fixpoint split_on (sep : ascii) (s : string) : list string :=
  match s with
  | EmptyString => [EmptyString]
  | String c rest =>
      let parts := split_on sep rest in
      if Ascii.eqb c sep then EmptyString :: parts
      else match parts with
           | p :: ps => String c p :: ps
           | [] => [String c EmptyString]
           end
  end.

(** [hay.includes(needle)] *)
Fixpoint includes (hay needle : string) : bool :=
  String.prefix needle hay ||
  match hay with
  | EmptyString => false
  | String _ rest => includes rest needle
  end.

(** [word.charAt(0)] *)
Definition charAt0 (word : string) : string :=
  match word with
  | EmptyString => EmptyString
  | String c _ => String c EmptyString
  end.

(** [words.map(word => word.charAt(0)).join('')] *)
Definition initials (words : list string) : string :=
  String.concat "" (map charAt0 words).

Definition hex_digit (n : nat) : ascii :=
  if (n <? 10)%nat then ascii_of_nat (48 + n) else ascii_of_nat (55 + n).

Definition percent (n : nat) : string :=
  String "%" (String (hex_digit (n / 16)) (String (hex_digit (n mod 16)) EmptyString)).

Definition uri_unreserved (c : ascii) : bool :=
  let n := nat_of_ascii c in
  ((48 <=? n) && (n <=? 57))%nat || ((65 <=? n) && (n <=? 90))%nat
  || ((97 <=? n) && (n <=? 122))%nat
  || existsb (fun k => (k =? n)%nat) [45; 95; 46; 33; 126; 42; 39; 40; 41]%nat.

(** [encodeURIComponent(s)]; characters 128..255 are encoded as their two
    UTF-8 bytes. *)
Fixpoint encodeURIComponent (s : string) : string :=
  match s with
  | EmptyString => EmptyString
  | String c rest =>
      let n := nat_of_ascii c in
      let enc := if uri_unreserved c then String c EmptyString
                 else if (n <? 128)%nat then percent n
                 else (percent (192 + n / 64) ++ percent (128 + n mod 64))%string in
      (enc ++ encodeURIComponent rest)%string
  end.

(* ------------------------------------------------------------------ *)
(** ** [new Date(s).getTime()] and [Array.prototype.sort] *)

Definition digit_val (c : ascii) : option Z :=
  let n := nat_of_ascii c in
  if ((48 <=? n) && (n <=? 57))%nat then Some (Z.of_nat n - 48) else None.

Fixpoint digits_val (acc : Z) (cs : list ascii) : option Z :=
  match cs with
  | [] => Some acc
  | c :: cs' => match digit_val c with
                | Some d => digits_val (acc * 10 + d) cs'
                | None => None
                end
  end.

Definition ms_per_day : Z := 86400000.

Definition date_value (y m d : Z) : option Z :=
  if (1 <=? m) && (m <=? 12) && (1 <=? d) && (d <=? days_in_month y m)
  then Some (days_from_civil {| year := y; month := m; day := d |} * ms_per_day)
  else None.

(** The date-only forms of the ECMAScript date time string format
    ([YYYY], [YYYY-MM], [YYYY-MM-DD]), read as UTC; [None] is [NaN]. *)
Definition getTime (s : string) : option Z :=
  match list_ascii_of_string s with
  | [y1; y2; y3; y4] =>
      match digits_val 0 [y1; y2; y3; y4] with
      | Some y => date_value y 1 1
      | None => None
      end
  | [y1; y2; y3; y4; h1; m1; m2] =>
      if Ascii.eqb h1 "-" then
        match digits_val 0 [y1; y2; y3; y4], digits_val 0 [m1; m2] with
        | Some y, Some m => date_value y m 1
        | _, _ => None
        end
      else None
  | [y1; y2; y3; y4; h1; m1; m2; h2; d1; d2] =>
      if Ascii.eqb h1 "-" && Ascii.eqb h2 "-" then
        match digits_val 0 [y1; y2; y3; y4], digits_val 0 [m1; m2], digits_val 0 [d1; d2] with
        | Some y, Some m, Some d => date_value y m d
        | _, _, _ => None
        end
      else None
  | _ => None
  end.

(** [!movie.release_date]: absent, [null] or the empty string. *)
Definition noReleaseDate (movie : Movie) : bool :=
  match release_date movie with
  | None => true
  | Some s => String.eqb s ""
  end.

Definition releaseString (movie : Movie) : string :=
  match release_date movie with Some s => s | None => "" end.

(** The comparator of [searchMovies]; [None] is a [NaN] result:
    [if (!a.release_date) return 1; if (!b.release_date) return -1;
     return new Date(b.release_date).getTime() - new Date(a.release_date).getTime();] *)
Definition releaseComparator (a b : Movie) : option Z :=
  if noReleaseDate a then Some 1
  else if noReleaseDate b then Some (-1)
  else match getTime (releaseString b), getTime (releaseString a) with
       | Some tb, Some ta => Some (tb - ta)
       | _, _ => None
       end.

(** SortCompare: a [NaN] answer counts as [+0]. *)
Definition sortCompare (a b : Movie) : Z :=
  match releaseComparator a b with Some v => v | None => 0 end.

(** [Array.prototype.sort] as the engines run it: a stable insertion that
    asks [comparefn(later, earlier)] and moves the later element in front
    of the earlier one only on a negative answer. *)
Fixpoint insert_by {A} (cmp : A -> A -> Z) (x : A) (l : list A) : list A :=
  match l with
  | [] => [x]
  | y :: ys => if cmp x y <? 0 then x :: y :: ys else y :: insert_by cmp x ys
  end.

Definition array_sort {A} (cmp : A -> A -> Z) (l : list A) : list A :=
  fold_left (fun acc x => insert_by cmp x acc) l [].

(* ------------------------------------------------------------------ *)
(** ** [searchMovies] *)

(** The predicate of [response.data.results.filter(...)]. *)
Definition movieMatches (trimmedQuery : string) (searchTerms : list string)
  (movie : Movie) : bool :=
  let ttl := lower (title movie) in
  let originalTitle := match original_title movie with
                       | Some o => lower o
                       | None => ""
                       end in
  let hasPartialMatch :=
    existsb (fun term => includes ttl term || includes originalTitle term) searchTerms in
  let hasInitialsMatch :=
    match searchTerms with
    | [term] =>
        if (2 <=? String.length trimmedQuery)%nat then
          let titleInitials := initials (split_on " " ttl) in
          let originalTitleInitials := initials (split_on " " originalTitle) in
          includes titleInitials term || includes originalTitleInitials term
        else false
    | _ => false
    end in
  hasPartialMatch || hasInitialsMatch.

Definition searchTermsOf (trimmedQuery : string) : list string :=
  split_on " " (lower trimmedQuery).

Definition filterResults (trimmedQuery : string) (rs : list Movie) : list Movie :=
  filter (movieMatches trimmedQuery (searchTermsOf trimmedQuery)) rs.

Definition searchRequest (trimmedQuery : string) : Request :=
  {| method := GET;
     url := ("/search/movie?query=" ++ encodeURIComponent trimmedQuery)%string;
     params := [] |}.

Section Search.

Variable net : Net.

Definition searchMovies (query : string) : M (list Movie) :=
  runInAction (markLoading (Cat search));;;
  try_catch
    (let trimmedQuery := trim query in
     if String.eqb trimmedQuery "" then
       runInAction (set_loading (Cat search) false);;; ret []
     else
       let searchTerms := searchTermsOf trimmedQuery in
       response <- issue (net_list net) (searchRequest trimmedQuery);;
       match results response with
       | None => throw TypeError
       | Some rs =>
           let filteredResults := filter (movieMatches trimmedQuery searchTerms) rs in
           let sorted := array_sort sortCompare filteredResults in
           runInAction (set_loading (Cat search) false);;;
           ret sorted
       end)
    (fun e => runInAction (markFailed (Cat search) (errorMessage e));;; ret []).

End Search.

(* ------------------------------------------------------------------ *)
(** ** Orders and filters stated by the specification *)

(** The release date an item is ordered by: [None] when it has none. *)
Definition release_key (m : Movie) : option Z :=
  if noReleaseDate m then None else getTime (releaseString m).

(** An item whose release date, when present, is a date. *)
Definition well_dated (m : Movie) : Prop :=
  noReleaseDate m = false -> getTime (releaseString m) <> None.

Definition well_datedb (m : Movie) : bool :=
  noReleaseDate m || match getTime (releaseString m) with Some _ => true | None => false end.

(** [a] may come before [b]: newer first, items without a date last. *)
Definition release_before (a b : Movie) : Prop :=
  match release_key a, release_key b with
  | _, None => True
  | Some ta, Some tb => tb <= ta
  | None, Some _ => False
  end.

Definition same_key (k1 k2 : option Z) : bool :=
  match k1, k2 with
  | None, None => true
  | Some a, Some b => a =? b
  | _, _ => false
  end.

(** Words of a string separated by white space. *)
Fixpoint ws_words_acc (cur : string) (s : string) : list string :=
  match s with
  | EmptyString => if String.eqb cur "" then [] else [reverse_string cur]
  | String c rest =>
      if is_ws c then
        (if String.eqb cur "" then [] else [reverse_string cur]) ++ ws_words_acc "" rest
      else ws_words_acc (String c cur) rest
  end.

Definition ws_words (s : string) : list string := ws_words_acc "" s.

(** The two-stage filter as the specification words it: terms are the
    white-space separated words of the trimmed, lowercased query. *)
Definition specMatches (query : string) (movie : Movie) : bool :=
  let terms := ws_words (lower (trim query)) in
  let ttl := lower (title movie) in
  let originalTitle := match original_title movie with
                       | Some o => lower o
                       | None => ""
                       end in
  existsb (fun term => includes ttl term || includes originalTitle term) terms
  || match terms with
     | [term] =>
         (2 <=? String.length term)%nat
         && (includes (initials (ws_words ttl)) term
             || includes (initials (ws_words originalTitle)) term)
     | _ => false
     end.

(* ------------------------------------------------------------------ *)
(** ** Concrete runs *)

Definition movie (i : Z) (t : string) (d : option string) : Movie :=
  {| id := i; title := t; poster_path := ""; backdrop_path := ""; release_date := d;
     overview := ""; genre_ids := []; original_title := None |}.

(** The results of the specification's search example for "ca". *)
Definition exampleResults : list Movie :=
  [movie 1 "Captain America" (Some "2011-07-22"); movie 2 "Cars" (Some "");
   movie 3 "Casino" (Some "1995-11-22")].

Definition listResponse (rs : list Movie) : MovieResponse :=
  {| page := 1; results := Some rs; total_pages := 1;
     total_results := Z.of_nat (length rs) |}.

(** A server that answers every list request with [rs] and accepts every
    watchlist change. *)
Definition netReturning (rs : list Movie) : Net :=
  {| net_list := fun _ _ => Normal (listResponse rs);
     net_detail := fun _ _ => Thrown (AxiosError "Network Error" None);
     net_post := fun _ _ => Normal (Some (JBool true)) |}.

Definition startWorld : World := {| store := initialStore; requests := [] |}.

(* ------------------------------------------------------------------ *)
(** ** Poster URLs, the user profile and [loadWatchlist] *)

(** [CBConfigs.tmdb.imageBaseUrl] *)
Definition imageBaseUrl : string := "https://media.themoviedb.org/t/p".

Inductive PosterSize := small | medium | large | original.

(** [CBConfigs.tmdb.posterSize] *)
Definition posterSize (size : PosterSize) : string :=
  match size with
  | small => "w185"
  | medium => "w342"
  | large => "w500"
  | original => "original"
  end.

Definition posterPlaceholder : string :=
  "https://via.placeholder.com/500x750?text=No+Image+Available".

(** [getPosterUrl(posterPath, size)]; [None] is a [null] path. *)
Definition getPosterUrl (posterPath : option string) (size : PosterSize) : string :=
  match posterPath with
  | None => posterPlaceholder
  | Some p =>
      if String.eqb p "" || String.eqb (trim p) "" then posterPlaceholder
      else if String.prefix "http" p then p
      else
        let path := if String.prefix "/" p then p else ("/" ++ p)%string in
        (imageBaseUrl ++ "/" ++ posterSize size ++ path)%string
  end.

Definition set_userProfile (p : option UserProfile) (s : Store) : Store :=
  {| nowPlayingMovies := nowPlayingMovies s; upcomingMovies := upcomingMovies s;
     popularMovies := popularMovies s; watchlistMovies := watchlistMovies s;
     userProfile := p; loading := loading s; error := error s;
     currentPage := currentPage s; totalPages := totalPages s;
     currentMovieDetail := currentMovieDetail s |}.

Definition profileRequest : Request :=
  {| method := GET; url := "/account/21896145"; params := [] |}.

Section Profile.

(** The server's answers to the [GET /account/21896145] requests. *)
Variable profileNet : nat -> Request -> Res UserProfile.

Definition getUserProfile : M (option UserProfile) :=
  runInAction (markLoading profile);;;
  try_catch
    (p <- issue profileNet profileRequest;;
     runInAction (fun s => set_loading profile false (set_userProfile (Some p) s));;;
     ret (Some p))
    (fun e => runInAction (markFailed profile (errorMessage e));;; ret None).

End Profile.

Section Watchlist.

Variable net : Net.

(** [loadWatchlist(sortBy)]: the description table only feeds a log line. *)
Definition loadWatchlist (sortBy : string) : M unit :=
  fetchWatchlist net 1 sortBy;;; ret tt.

End Watchlist.

(* ------------------------------------------------------------------ *)
(** ** The earlier version of the store (src/unnamed/part_003)

    Its [fetchMoviesByCategory] also serves ['popular'], and its
    [fetchPopularMovies] goes through it.  The fields the earlier class does
    not have (watchlist, profile, detail) are carried along untouched. *)

Module Variant003.

Definition categoryRequest (today : LocalDate) (category : MovieCategory) (pg : Z)
  : option Request :=
  match category with
  | now_playing =>
      let pastDateStr := DateUtil.getDateDaysAgo today 60 in
      let currentDateStr := DateUtil.getCurrentDateFormatted today in
      Some (discoverRequest
        [("include_adult", PBool false); ("include_video", PBool false);
         ("language", PStr "en-US"); ("page", PNum pg);
         ("sort_by", PStr "popularity.desc"); ("with_release_type", PStr "2|3");
         ("release_date.gte", PStr pastDateStr);
         ("release_date.lte", PStr currentDateStr)])
  | popular =>
      (* [{ ...params, sort_by: 'popularity.desc' }] *)
      Some (discoverRequest
        [("language", PStr "en-US"); ("page", PNum pg);
         ("include_adult", PBool false); ("include_video", PBool false);
         ("sort_by", PStr "popularity.desc")])
  | upcoming =>
      let tomorrowStr := DateUtil.getDateDaysFromNow today 1 in
      let maxDateStr := DateUtil.getDateMonthsFromNow today 2 in
      Some (discoverRequest
        [("include_adult", PBool false); ("include_video", PBool false);
         ("language", PStr "en-US"); ("page", PNum pg);
         ("sort_by", PStr "popularity.desc"); ("with_release_type", PStr "2|3");
         ("release_date.gte", PStr tomorrowStr);
         ("release_date.lte", PStr maxDateStr)])
  | search => None
  end.

Definition fetchMoviesByCategory (net : Net) (today : LocalDate) (category : MovieCategory)
  (pg : Z) : M unit :=
  runInAction (markLoading (Cat category));;;
  try_catch
    (match categoryRequest today category pg with
     | None => throw (PlainError "Invalid category")
     | Some req =>
         response <- issue (net_list net) req;;
         (* [response.data.results.length] in the sample log *)
         match results response with
         | None => throw TypeError
         | Some rs =>
             runInAction (fun s =>
               let s := match category with
                        | now_playing => set_nowPlayingMovies rs s
                        | upcoming => set_upcomingMovies rs s
                        | popular => set_popularMovies rs s
                        | search => s
                        end in
               let s := set_currentPage category (page response) s in
               let s := set_totalPages category (total_pages response) s in
               set_loading (Cat category) false s)
         end
     end)
    (fun e => runInAction (markFailed (Cat category) (errorMessage e))).

Definition fetchPopularMovies (net : Net) (today : LocalDate) (forceRefresh : bool) : M unit :=
  s <- get_store;;
  if (0 <? Z.of_nat (length (popularMovies s))) && negb forceRefresh then ret tt
  else fetchMoviesByCategory net today popular 1.

End Variant003.

(* ================================================================== *)
(** * Properties *)

Ltac run_store :=
  repeat (unfold fetchMoviesByCategory, fetchNowPlayingMovies, fetchUpcomingMovies,
          fetchPopularMovies, fetchPopularMoviesSorted, getMovieDetails, fetchWatchlist,
          addToWatchlist, removeFromWatchlist, toggleWatchlist, clearCache,
          searchMovies, bind, try_catch, runInAction, issue, ret, throw, get_store,
          markLoading, markFailed in *); cbn in *.

Arguments format_ymd : simpl never.
Arguments add_days : simpl never.
Arguments add_months : simpl never.

Lemma issued_none (l : list (Request * Store)) (Q : Store -> Prop) :
  exists issued, l = l ++ issued /\ forall r s, In (r, s) issued -> Q s.
Proof. exists []. rewrite app_nil_r. split; [reflexivity | intros r s []]. Qed.

Lemma issued_one (l : list (Request * Store)) (req : Request) (snap : Store)
  (Q : Store -> Prop) :
  Q snap -> exists issued, l ++ [(req, snap)] = l ++ issued /\
                           forall r s, In (r, s) issued -> Q s.
Proof.
  intros Hq. exists [(req, snap)]. split; [reflexivity|].
  intros r s [H | []]. inversion H; subst. exact Hq.
Qed.

(** ** C1 *)

(** C1: for every category, page and server behaviour, [fetchMoviesByCategory]
    sets [loading[category]] to true and [error[category]] to null in the
    store every request it issues sees, and once it settles (success,
    failure, or invalid category) [loading[category]] is false.  The call
    never rejects. *)
Theorem fetchMoviesByCategory_loading_settles :
  forall net today c pg w,
    let '(w', r) := fetchMoviesByCategory net today c pg w in
    r = Normal tt /\
    (exists issued, requests w' = requests w ++ issued /\
       forall req snap, In (req, snap) issued ->
         loading snap (Cat c) = true /\ error snap (Cat c) = None) /\
    loading (store w') (Cat c) = false.
Proof.
  intros net today c pg w.
  destruct c; run_store;
    try (split; [reflexivity | split; [apply issued_none | reflexivity]]);
    destruct (net_list net _ _) as [resp|e]; try destruct (results resp); cbn;
    (split; [reflexivity | split; [apply issued_one; cbn; split; reflexivity
                                  | reflexivity]]).
Qed.

(** ** Cache wrappers *)

Lemma fetchMoviesByCategory_one_request net today c pg w :
  c = now_playing \/ c = upcoming ->
  length (requests (fst (fetchMoviesByCategory net today c pg w)))
  = S (length (requests w)).
Proof.
  intros [-> | ->]; run_store;
    destruct (net_list net _ _) as [resp|e]; try destruct (results resp); cbn;
    rewrite length_app; cbn; lia.
Qed.

Lemma fetchPopularMoviesSorted_one_request net sortBy w :
  length (requests (fst (fetchPopularMoviesSorted net sortBy w)))
  = S (length (requests w)).
Proof.
  run_store; destruct (net_list net _ _) as [resp|e]; try destruct (results resp); cbn;
    rewrite length_app; cbn; lia.
Qed.

Lemma nonempty_positive {A} (l : list A) :
  l <> [] -> (0 <? Z.of_nat (length l)) = true.
Proof. destruct l; [congruence | reflexivity]. Qed.

Lemma fetchNowPlayingMovies_cached net today w :
  nowPlayingMovies (store w) <> [] -> fetchNowPlayingMovies net today false w = (w, Normal tt).
Proof. intros H. run_store. rewrite (nonempty_positive _ H). reflexivity. Qed.

Lemma fetchUpcomingMovies_cached net today w :
  upcomingMovies (store w) <> [] -> fetchUpcomingMovies net today false w = (w, Normal tt).
Proof. intros H. run_store. rewrite (nonempty_positive _ H). reflexivity. Qed.

Lemma fetchPopularMovies_cached net w :
  popularMovies (store w) <> [] -> fetchPopularMovies net false w = (w, Normal tt).
Proof. intros H. run_store. rewrite (nonempty_positive _ H). reflexivity. Qed.

Lemma fetchNowPlayingMovies_forced net today w :
  length (requests (fst (fetchNowPlayingMovies net today true w))) = S (length (requests w)).
Proof.
  unfold fetchNowPlayingMovies, bind, get_store. rewrite andb_false_r.
  apply fetchMoviesByCategory_one_request. left; reflexivity.
Qed.

Lemma fetchUpcomingMovies_forced net today w :
  length (requests (fst (fetchUpcomingMovies net today true w))) = S (length (requests w)).
Proof.
  unfold fetchUpcomingMovies, bind, get_store. rewrite andb_false_r.
  apply fetchMoviesByCategory_one_request. right; reflexivity.
Qed.

Lemma fetchPopularMovies_forced net w :
  length (requests (fst (fetchPopularMovies net true w))) = S (length (requests w)).
Proof.
  unfold fetchPopularMovies, bind, get_store. rewrite andb_false_r.
  apply fetchPopularMoviesSorted_one_request.
Qed.

Lemma fetchNowPlayingMovies_first net today w :
  nowPlayingMovies (store w) = [] ->
  length (requests (fst (fetchNowPlayingMovies net today false w))) = S (length (requests w)).
Proof.
  intros H. unfold fetchNowPlayingMovies, bind, get_store. rewrite H.
  cbn -[fetchMoviesByCategory fetchPopularMoviesSorted].
  apply fetchMoviesByCategory_one_request. left; reflexivity.
Qed.

Lemma fetchUpcomingMovies_first net today w :
  upcomingMovies (store w) = [] ->
  length (requests (fst (fetchUpcomingMovies net today false w))) = S (length (requests w)).
Proof.
  intros H. unfold fetchUpcomingMovies, bind, get_store. rewrite H.
  cbn -[fetchMoviesByCategory fetchPopularMoviesSorted].
  apply fetchMoviesByCategory_one_request. right; reflexivity.
Qed.

Lemma fetchPopularMovies_first net w :
  popularMovies (store w) = [] ->
  length (requests (fst (fetchPopularMovies net false w))) = S (length (requests w)).
Proof.
  intros H. unfold fetchPopularMovies, bind, get_store. rewrite H.
  cbn -[fetchMoviesByCategory fetchPopularMoviesSorted].
  apply fetchPopularMoviesSorted_one_request.
Qed.

(** ** C4 *)

(** C4: each of [fetchNowPlayingMovies], [fetchUpcomingMovies] and
    [fetchPopularMovies] returns at once, issuing no request and changing
    nothing, when its collection is non-empty and [forceRefresh] is false;
    with [forceRefresh] true it issues one request whatever the collection;
    and a first call that fills an empty collection followed by a second
    call without [forceRefresh] issue exactly one request in total. *)
Theorem cache_wrappers_short_circuit :
  forall net today today' w,
    ((nowPlayingMovies (store w) <> [] ->
        fetchNowPlayingMovies net today false w = (w, Normal tt)) /\
     length (requests (fst (fetchNowPlayingMovies net today true w)))
       = S (length (requests w)) /\
     (nowPlayingMovies (store w) = [] ->
        let w1 := fst (fetchNowPlayingMovies net today false w) in
        nowPlayingMovies (store w1) <> [] ->
        length (requests (fst (fetchNowPlayingMovies net today' false w1)))
          = S (length (requests w)))) /\
    ((upcomingMovies (store w) <> [] ->
        fetchUpcomingMovies net today false w = (w, Normal tt)) /\
     length (requests (fst (fetchUpcomingMovies net today true w)))
       = S (length (requests w)) /\
     (upcomingMovies (store w) = [] ->
        let w1 := fst (fetchUpcomingMovies net today false w) in
        upcomingMovies (store w1) <> [] ->
        length (requests (fst (fetchUpcomingMovies net today' false w1)))
          = S (length (requests w)))) /\
    ((popularMovies (store w) <> [] ->
        fetchPopularMovies net false w = (w, Normal tt)) /\
     length (requests (fst (fetchPopularMovies net true w)))
       = S (length (requests w)) /\
     (popularMovies (store w) = [] ->
        let w1 := fst (fetchPopularMovies net false w) in
        popularMovies (store w1) <> [] ->
        length (requests (fst (fetchPopularMovies net false w1)))
          = S (length (requests w)))).
Proof.
  intros net today today' w.
  split; [|split]; (split; [|split]).
  - apply fetchNowPlayingMovies_cached.
  - apply fetchNowPlayingMovies_forced.
  - intros H0 w1 H1. unfold w1. rewrite (fetchNowPlayingMovies_cached _ _ _ H1). cbn.
    apply fetchNowPlayingMovies_first; exact H0.
  - apply fetchUpcomingMovies_cached.
  - apply fetchUpcomingMovies_forced.
  - intros H0 w1 H1. unfold w1. rewrite (fetchUpcomingMovies_cached _ _ _ H1). cbn.
    apply fetchUpcomingMovies_first; exact H0.
  - apply fetchPopularMovies_cached.
  - apply fetchPopularMovies_forced.
  - intros H0 w1 H1. unfold w1. rewrite (fetchPopularMovies_cached _ _ H1). cbn.
    apply fetchPopularMovies_first; exact H0.
Qed.

(** ** C8 *)

(** C8: [getMovieDetails] stores and returns the fetched record when the
    request succeeds; when it fails it returns null, records the error
    message and leaves the detail slot as it was. *)
Theorem getMovieDetails_slot :
  forall net movieId w,
    let '(w', r) := getMovieDetails net movieId w in
    match net_detail net (length (requests w)) (detailRequest movieId) with
    | Normal d => r = Normal (Some d) /\ currentMovieDetail (store w') = Some d
    | Thrown e => r = Normal None /\
                  currentMovieDetail (store w') = currentMovieDetail (store w) /\
                  error (store w') (Cat search) = Some (errorMessage e)
    end.
Proof.
  intros net movieId w. run_store.
  destruct (net_detail net _ _) as [d|e]; cbn; auto.
Qed.

(** ** C9 *)

(** C9: [clearCache] empties the three category collections and resets
    [currentPage] to 1 and [totalPages] to 0 for every category, leaving
    the loading flags, errors, watchlist, profile and detail slot as they
    were. *)
Theorem clearCache_resets_collections_only :
  forall w,
    let '(w', r) := clearCache w in
    r = Normal tt /\ requests w' = requests w /\
    nowPlayingMovies (store w') = [] /\ upcomingMovies (store w') = [] /\
    popularMovies (store w') = [] /\
    (forall c, currentPage (store w') c = 1 /\ totalPages (store w') c = 0) /\
    loading (store w') = loading (store w) /\ error (store w') = error (store w) /\
    watchlistMovies (store w') = watchlistMovies (store w) /\
    userProfile (store w') = userProfile (store w) /\
    currentMovieDetail (store w') = currentMovieDetail (store w).
Proof.
  intros w. run_store.
  repeat split; destruct c; reflexivity.
Qed.

(** ** C10 *)

(** C10: [getMovieDetails] and [fetchWatchlist] both use the ['search']
    slots: every request they issue sees [loading.search] true and
    [error.search] null, they leave [loading.search] false, and a failure
    writes its own message into [error.search], whatever was there. *)
Theorem detail_and_watchlist_share_search_slot :
  forall net movieId pg sortBy w,
    (let '(w', _) := getMovieDetails net movieId w in
     (exists issued, requests w' = requests w ++ issued /\
        forall req snap, In (req, snap) issued ->
          loading snap (Cat search) = true /\ error snap (Cat search) = None) /\
     loading (store w') (Cat search) = false /\
     match net_detail net (length (requests w)) (detailRequest movieId) with
     | Normal _ => error (store w') (Cat search) = None
     | Thrown e => error (store w') (Cat search) = Some (errorMessage e)
     end) /\
    (let '(w', _) := fetchWatchlist net pg sortBy w in
     (exists issued, requests w' = requests w ++ issued /\
        forall req snap, In (req, snap) issued ->
          loading snap (Cat search) = true /\ error snap (Cat search) = None) /\
     loading (store w') (Cat search) = false /\
     match net_list net (length (requests w)) (watchlistPageRequest pg sortBy) with
     | Normal _ => error (store w') (Cat search) = None
     | Thrown e => error (store w') (Cat search) = Some (errorMessage e)
     end).
Proof.
  intros net movieId pg sortBy w. split; run_store.
  - destruct (net_detail net _ _) as [d|e]; cbn;
      (split; [apply issued_one; cbn; split; reflexivity | split; reflexivity]).
  - destruct (net_list net _ _) as [resp|e]; try destruct (results resp); cbn;
      (split; [apply issued_one; cbn; split; reflexivity | split; reflexivity]).
Qed.

(** ** Watchlist *)

Lemma find_none_isIn (l : list Movie) (i : Z) :
  find (fun m => id m =? i) l = None <-> existsb (fun m => id m =? i) l = false.
Proof.
  induction l as [|x l IH]; cbn; [tauto|].
  destruct (id x =? i); cbn; [split; discriminate | exact IH].
Qed.

Lemma isIn_after_filter (l : list Movie) (i : Z) :
  existsb (fun m => id m =? i) (filter (fun m => negb (id m =? i)) l) = false.
Proof.
  induction l as [|x l IH]; cbn; [reflexivity|].
  destruct (id x =? i) eqn:E; cbn; [exact IH | rewrite E; exact IH].
Qed.

Lemma isIn_after_push (l : list Movie) (m : Movie) :
  existsb (fun x => id x =? id m) (l ++ [m]) = true.
Proof.
  rewrite existsb_app. cbn. rewrite Z.eqb_refl. now rewrite !orb_true_r.
Qed.

Lemma in_map_id_existsb (l : list Movie) (i : Z) :
  In i (map id l) <-> existsb (fun m => id m =? i) l = true.
Proof.
  induction l as [|x l IH]; cbn; [split; [tauto | discriminate]|].
  rewrite orb_true_iff, Z.eqb_eq, IH. split; intros [H|H]; auto.
Qed.

Lemma count_after_filter (l : list Movie) (i : Z) :
  NoDup (map id l) -> existsb (fun m => id m =? i) l = true ->
  S (length (filter (fun m => negb (id m =? i)) l)) = length l.
Proof.
  induction l as [|x l IH]; cbn; [discriminate|].
  intros Hnd Hin. inversion Hnd as [|? ? Hx Hnd']; subst.
  destruct (id x =? i) eqn:E; cbn.
  - apply Z.eqb_eq in E. subst i. f_equal.
    assert (Hf : forall l', ~ In (id x) (map id l') ->
              filter (fun m => negb (id m =? id x)) l' = l').
    { induction l' as [|y l' IH']; cbn; [reflexivity|].
      intros Hy. destruct (id y =? id x) eqn:Ey.
      - apply Z.eqb_eq in Ey. exfalso. apply Hy. left. exact Ey.
      - cbn. f_equal. apply IH'. intros Hn. apply Hy. right. exact Hn. }
    now rewrite Hf.
  - f_equal. apply IH; assumption.
Qed.

Lemma nodup_after_filter (l : list Movie) (p : Movie -> bool) :
  NoDup (map id l) -> NoDup (map id (filter p l)).
Proof.
  induction l as [|x l IH]; cbn; [intros; constructor|].
  intros Hnd. inversion Hnd as [|? ? Hx Hnd']; subst.
  destruct (p x); cbn; [|apply IH; exact Hnd'].
  constructor; [|apply IH; exact Hnd'].
  intros Hin. apply Hx. rewrite in_map_iff in Hin |- *.
  destruct Hin as [y [Hy Hyin]]. exists y. split; [exact Hy|].
  apply filter_In in Hyin. apply Hyin.
Qed.

Lemma nodup_after_push (l : list Movie) (m : Movie) :
  NoDup (map id l) -> existsb (fun x => id x =? id m) l = false ->
  NoDup (map id (l ++ [m])).
Proof.
  intros Hnd Hout. rewrite map_app. cbn.
  apply (Permutation_NoDup (Permutation_cons_append _ _)).
  constructor; [|exact Hnd].
  intros Hin. apply in_map_id_existsb in Hin. congruence.
Qed.

(** ** C2 *)

(** C2: on a watchlist without duplicate ids, [addToWatchlist m] with [m]
    already present returns false with no request and no change; otherwise
    it issues one POST, and only a truthy [success] in the reply appends [m]
    (one more element, ids still distinct) and returns true; a rejected
    request or a missing/false [success] returns false with the store
    unchanged.  [removeFromWatchlist i] is symmetric: an absent id returns
    false with no request; a truthy [success] filters the id out (one element
    fewer, id no longer present); any failure leaves the store unchanged. *)
Theorem watchlist_mutations_on_confirmation :
  forall net m i w,
    NoDup (map id (watchlistMovies (store w))) ->
    (let '(w', r) := addToWatchlist net m w in
     if isInWatchlist (id m) (store w) then r = Normal false /\ w' = w
     else length (requests w') = S (length (requests w)) /\
          match net_post net (length (requests w)) (watchlistRequest (id m) true) with
          | Normal d =>
              if truthy (success_of d) then
                r = Normal true /\
                store w' = set_watchlistMovies (watchlistMovies (store w) ++ [m]) (store w) /\
                length (watchlistMovies (store w')) = S (length (watchlistMovies (store w))) /\
                NoDup (map id (watchlistMovies (store w')))
              else r = Normal false /\ store w' = store w
          | Thrown _ => r = Normal false /\ store w' = store w
          end) /\
    (let '(w', r) := removeFromWatchlist net i w in
     if isInWatchlist i (store w) then
       length (requests w') = S (length (requests w)) /\
       match net_post net (length (requests w)) (watchlistRequest i false) with
       | Normal d =>
           if truthy (success_of d) then
             r = Normal true /\
             store w' = set_watchlistMovies
                          (filter (fun movie => negb (id movie =? i))
                             (watchlistMovies (store w))) (store w) /\
             S (length (watchlistMovies (store w'))) = length (watchlistMovies (store w)) /\
             isInWatchlist i (store w') = false /\
             NoDup (map id (watchlistMovies (store w')))
           else r = Normal false /\ store w' = store w
       | Thrown _ => r = Normal false /\ store w' = store w
       end
     else r = Normal false /\ w' = w).
Proof.
  intros net m i w Hnd. split.
  - unfold addToWatchlist, bind, get_store.
    destruct (isInWatchlist (id m) (store w)) eqn:Hin; [split; reflexivity|].
    unfold try_catch, issue, runInAction, ret. cbn.
    destruct (net_post net _ _) as [d|e]; cbn;
      [destruct (truthy (success_of d)); cbn|];
      (split; [rewrite length_app; cbn; lia|]).
    + split; [reflexivity|]. split; [reflexivity|]. split.
      * rewrite length_app; cbn; lia.
      * apply nodup_after_push; assumption.
    + split; reflexivity.
    + split; reflexivity.
  - unfold removeFromWatchlist, bind, get_store.
    destruct (isInWatchlist i (store w)) eqn:Hin.
    + unfold isInWatchlist in Hin.
      destruct (find _ _) eqn:Hf; [| apply find_none_isIn in Hf; congruence].
      unfold try_catch, issue, runInAction, ret. cbn.
      destruct (net_post net _ _) as [d|e]; cbn;
        [destruct (truthy (success_of d)); cbn|];
        (split; [rewrite length_app; cbn; lia|]).
      * split; [reflexivity|]. split; [reflexivity|]. split; [|split].
        -- apply count_after_filter; assumption.
        -- apply isIn_after_filter.
        -- apply nodup_after_filter; assumption.
      * split; reflexivity.
      * split; reflexivity.
    + unfold isInWatchlist in Hin. apply find_none_isIn in Hin. rewrite Hin.
      split; reflexivity.
Qed.

(** ** C3 *)

(** C3: whatever the server answers, the boolean returned by
    [toggleWatchlist m] is the membership of [m.id] in the watchlist once
    the call has settled. *)
Theorem toggleWatchlist_returns_membership :
  forall net m w,
    let '(w', r) := toggleWatchlist net m w in
    r = Normal (isInWatchlist (id m) (store w')).
Proof.
  intros net m w.
  unfold toggleWatchlist, bind at 1, get_store.
  destruct (isInWatchlist (id m) (store w)) eqn:Hin.
  - unfold removeFromWatchlist, bind, get_store.
    unfold isInWatchlist in Hin.
    destruct (find _ _) eqn:Hf; [| apply find_none_isIn in Hf; congruence].
    unfold try_catch, issue, runInAction, ret. cbn.
    destruct (net_post net _ _) as [d|e]; cbn;
      [destruct (truthy (success_of d)); cbn|];
      unfold isInWatchlist; cbn; try rewrite isIn_after_filter; try rewrite Hin;
      reflexivity.
  - unfold addToWatchlist, bind, get_store. rewrite Hin.
    unfold try_catch, issue, runInAction, ret. cbn.
    destruct (net_post net _ _) as [d|e]; cbn;
      [destruct (truthy (success_of d)); cbn|];
      unfold isInWatchlist; cbn; try rewrite isIn_after_push;
      unfold isInWatchlist in Hin; try rewrite Hin; reflexivity.
Qed.

(** ** Calendar arithmetic *)

Lemma all_from_spec (f : Z -> bool) (fuel : nat) :
  forall k, all_from f k fuel = true -> forall j, k <= j < k + Z.of_nat fuel -> f j = true.
Proof.
  induction fuel as [|n IH]; cbn; intros k H j Hj; [lia|].
  apply andb_true_iff in H as [Hk Hrest].
  destruct (Z.eq_dec j k) as [->|Hne]; [exact Hk|].
  apply (IH (k + 1)); [exact Hrest | lia].
Qed.

Lemma civil_check_all (doe : Z) : 0 <= doe < 146097 -> civil_check doe = true.
Proof.
  intros Hd.
  assert (Hall : all_from civil_check 0 (Z.to_nat 146097) = true)
    by (vm_compute; reflexivity).
  apply (all_from_spec _ _ _ Hall). rewrite Z2Nat.id by lia. lia.
Qed.

Lemma days_from_civil_inverse (z0 : Z) : days_from_civil (civil_from_days z0) = z0.
Proof.
  unfold civil_from_days, days_from_civil. cbn [year month day].
  set (z := z0 + 719468). set (era := z / 146097). set (doe := z - era * 146097).
  assert (Hdoe : 0 <= doe < 146097).
  { unfold doe, era. pose proof (Z.mod_pos_bound z 146097 ltac:(lia)) as Hb.
    rewrite Z.mod_eq in Hb by lia. lia. }
  pose proof (civil_check_all doe Hdoe) as Hc. unfold civil_check in Hc.
  set (yoe := yoe_of doe) in *. set (doy := doy_of doe yoe) in *.
  set (mp := mp_of doy) in *.
  rewrite !andb_true_iff, Z.leb_le, Z.ltb_lt, !Z.eqb_eq in Hc.
  destruct Hc as [[[H1 H2] H3] H4].
  assert (Hera : (yoe + era * 400) / 400 = era).
  { rewrite Z.div_add by lia. rewrite Z.div_small by lia. lia. }
  destruct (month_of mp <=? 2);
    [replace (yoe + era * 400 + 1 - 1) with (yoe + era * 400) by lia|];
    rewrite Hera, H3;
    replace (yoe + era * 400 - era * 400) with yoe by lia;
    clearbody yoe doy mp; unfold doe, era, z in *; lia.
Qed.

Lemma add_days_count (d : LocalDate) (n : Z) :
  days_from_civil (add_days d n) = days_from_civil d + n.
Proof. unfold add_days. apply days_from_civil_inverse. Qed.

Lemma add_months_index (d : LocalDate) (k : Z) :
  year (add_months d k) * 12 + month (add_months d k) = year d * 12 + month d + k /\
  1 <= month (add_months d k) <= 12 /\
  day (add_months d k)
    = Z.min (day d) (days_in_month (year (add_months d k)) (month (add_months d k))).
Proof.
  unfold add_months; cbn [year month day].
  pose proof (Z.div_mod (year d * 12 + (month d - 1) + k) 12 ltac:(lia)).
  pose proof (Z.mod_pos_bound (year d * 12 + (month d - 1) + k) 12 ltac:(lia)).
  split; [lia | split; [lia | reflexivity]].
Qed.

(** ** C7 *)

(** C7: for every page and current local date, the 'now_playing' request is
    a GET of /discover/movie sorted by popularity, release types 2|3, from
    the date 60 days back to today; the 'upcoming' request has the same
    sort and release types, from tomorrow to the date two months ahead
    (same day of month, clamped to the month's length). *)
Theorem category_requests_date_windows :
  forall net today pg w,
    (exists snap,
       requests (fst (fetchMoviesByCategory net today now_playing pg w))
       = requests w ++
         [({| method := GET; url := "/discover/movie";
              params := [("include_adult", PBool false); ("include_video", PBool false);
                         ("language", PStr "en-US"); ("page", PNum pg);
                         ("sort_by", PStr "popularity.desc");
                         ("with_release_type", PStr "2|3");
                         ("release_date.gte", PStr (format_ymd (add_days today (-60))));
                         ("release_date.lte", PStr (format_ymd today))] |}, snap)]) /\
    (exists snap,
       requests (fst (fetchMoviesByCategory net today upcoming pg w))
       = requests w ++
         [({| method := GET; url := "/discover/movie";
              params := [("include_adult", PBool false); ("include_video", PBool false);
                         ("language", PStr "en-US"); ("page", PNum pg);
                         ("sort_by", PStr "popularity.desc");
                         ("with_release_type", PStr "2|3");
                         ("release_date.gte", PStr (format_ymd (add_days today 1)));
                         ("release_date.lte", PStr (format_ymd (add_months today 2)))] |},
           snap)]) /\
    days_from_civil (add_days today (-60)) = days_from_civil today - 60 /\
    days_from_civil (add_days today 1) = days_from_civil today + 1 /\
    year (add_months today 2) * 12 + month (add_months today 2)
      = year today * 12 + month today + 2 /\
    day (add_months today 2)
      = Z.min (day today) (days_in_month (year (add_months today 2))
                                         (month (add_months today 2))).
Proof.
  intros net today pg w.
  split; [|split; [|split; [|split; [|split]]]].
  - run_store. destruct (net_list net _ _) as [resp|e]; try destruct (results resp);
      eexists; reflexivity.
  - run_store. destruct (net_list net _ _) as [resp|e]; try destruct (results resp);
      eexists; reflexivity.
  - apply add_days_count.
  - apply add_days_count.
  - apply add_months_index.
  - apply add_months_index.
Qed.

(** ** Sorting search results *)

Lemma same_key_iff (k1 k2 : option Z) : same_key k1 k2 = true <-> k1 = k2.
Proof.
  destruct k1, k2; cbn; try (split; congruence).
  rewrite Z.eqb_eq. split; congruence.
Qed.

Lemma release_before_key (a b : Movie) :
  release_key a = release_key b -> release_before a b.
Proof.
  unfold release_before. intros ->. destruct (release_key b); lia || exact I.
Qed.

Lemma release_before_total (a b : Movie) : release_before a b \/ release_before b a.
Proof.
  unfold release_before.
  destruct (release_key a), (release_key b); auto; lia.
Qed.

Lemma release_before_dec (a b : Movie) :
  {release_before a b} + {~ release_before a b}.
Proof.
  unfold release_before.
  destruct (release_key a), (release_key b); auto; apply Z_le_dec.
Qed.

Lemma release_before_trans (a b c : Movie) :
  release_before a b -> release_before b c -> release_before a c.
Proof.
  unfold release_before.
  destruct (release_key a), (release_key b), (release_key c); auto; try lia; tauto.
Qed.

Lemma sortCompare_neg_iff (x y : Movie) :
  well_dated x -> well_dated y ->
  (sortCompare x y <? 0) = true <-> ~ release_before y x.
Proof.
  unfold well_dated, sortCompare, releaseComparator, release_before, release_key.
  intros Hx Hy.
  destruct (noReleaseDate x) eqn:Ex; destruct (noReleaseDate y) eqn:Ey; cbn.
  - split; [discriminate | intros H; exfalso; apply H; exact I].
  - destruct (getTime (releaseString y)); cbn; split; try discriminate; tauto.
  - specialize (Hx eq_refl). destruct (getTime (releaseString x)); [|congruence].
    cbn. split; [intros _ H; exact H | reflexivity].
  - specialize (Hx eq_refl). specialize (Hy eq_refl).
    destruct (getTime (releaseString x)) as [tx|]; [|congruence].
    destruct (getTime (releaseString y)) as [ty|]; [|congruence].
    rewrite Z.ltb_lt. lia.
Qed.

Lemma insert_by_perm {A} (cmp : A -> A -> Z) (x : A) (l : list A) :
  Permutation (x :: l) (insert_by cmp x l).
Proof.
  induction l as [|y l IH]; cbn; [reflexivity|].
  destruct (cmp x y <? 0); [reflexivity|].
  eapply perm_trans; [apply perm_swap|]. constructor. exact IH.
Qed.

Lemma array_sort_perm_acc {A} (cmp : A -> A -> Z) (l acc : list A) :
  Permutation (l ++ acc) (fold_left (fun acc x => insert_by cmp x acc) l acc).
Proof.
  revert acc. induction l as [|x l IH]; intros acc; cbn; [reflexivity|].
  eapply perm_trans; [|apply IH].
  eapply perm_trans; [apply Permutation_middle|].
  apply Permutation_app_head. apply insert_by_perm.
Qed.

Lemma array_sort_perm {A} (cmp : A -> A -> Z) (l : list A) :
  Permutation l (array_sort cmp l).
Proof.
  unfold array_sort. rewrite <- (app_nil_r l) at 1. apply array_sort_perm_acc.
Qed.

Lemma insert_sorted (x : Movie) (l : list Movie) :
  well_dated x -> Forall well_dated l -> StronglySorted release_before l ->
  StronglySorted release_before (insert_by sortCompare x l).
Proof.
  induction l as [|y l IH]; cbn; intros Hx Hl Hs.
  - repeat constructor.
  - inversion Hl as [|? ? Hy Hl']; subst. inversion Hs as [|? ? Hs' Hyl]; subst.
    destruct (sortCompare x y <? 0) eqn:E.
    + apply (sortCompare_neg_iff x y Hx Hy) in E.
      assert (Hxy : release_before x y)
        by (destruct (release_before_total x y); tauto).
      constructor; [exact Hs|]. constructor; [exact Hxy|].
      eapply Forall_impl; [|exact Hyl]. intros z Hz. eapply release_before_trans; eauto.
    + assert (Hyx : release_before y x).
      { destruct (release_before_dec y x) as [H|H]; [exact H|].
        apply (sortCompare_neg_iff x y Hx Hy) in H. congruence. }
      constructor; [apply IH; assumption|].
      apply (Permutation_Forall (insert_by_perm sortCompare x l)).
      constructor; assumption.
Qed.

Lemma filter_all_false {A} (f : A -> bool) (l : list A) :
  (forall z, In z l -> f z = false) -> filter f l = [].
Proof.
  induction l as [|y l IH]; cbn; intros H; [reflexivity|].
  rewrite (H y (or_introl eq_refl)). apply IH. intros z Hz. apply H. right. exact Hz.
Qed.

Lemma filter_cons_eq {A} (f : A -> bool) (a : A) (l : list A) :
  filter f (a :: l) = if f a then a :: filter f l else filter f l.
Proof. reflexivity. Qed.

Lemma insert_filter (k : option Z) (x : Movie) (l : list Movie) :
  well_dated x -> Forall well_dated l -> StronglySorted release_before l ->
  filter (fun m => same_key (release_key m) k) (insert_by sortCompare x l)
  = filter (fun m => same_key (release_key m) k) l
    ++ filter (fun m => same_key (release_key m) k) [x].
Proof.
  induction l as [|y l IH]; intros Hx Hl Hs; [reflexivity|].
  inversion Hl as [|? ? Hy Hl']; subst. inversion Hs as [|? ? Hs' Hyl]; subst.
  cbn [insert_by]. destruct (sortCompare x y <? 0) eqn:E.
  - apply (sortCompare_neg_iff x y Hx Hy) in E.
    rewrite (filter_cons_eq _ x (y :: l)).
    destruct (same_key (release_key x) k) eqn:Fx.
    + assert (Hnil : filter (fun m => same_key (release_key m) k) (y :: l) = []).
      { apply filter_all_false.
        intros z Hz. destruct (same_key (release_key z) k) eqn:Fz; [|reflexivity].
        exfalso. apply E. apply same_key_iff in Fx, Fz.
        apply release_before_trans with z.
        - destruct Hz as [<-|Hz]; [apply release_before_key; reflexivity|].
          rewrite Forall_forall in Hyl. apply Hyl. exact Hz.
        - apply release_before_key. congruence. }
      rewrite Hnil. cbn. rewrite Fx. reflexivity.
    + cbn. rewrite Fx. rewrite app_nil_r. reflexivity.
  - cbn [filter]. rewrite IH by assumption.
    destruct (same_key (release_key y) k); reflexivity.
Qed.

Lemma array_sort_facts_acc (k : option Z) (l acc : list Movie) :
  Forall well_dated l -> Forall well_dated acc -> StronglySorted release_before acc ->
  StronglySorted release_before (fold_left (fun acc x => insert_by sortCompare x acc) l acc)
  /\ filter (fun m => same_key (release_key m) k)
       (fold_left (fun acc x => insert_by sortCompare x acc) l acc)
     = filter (fun m => same_key (release_key m) k) acc
       ++ filter (fun m => same_key (release_key m) k) l.
Proof.
  revert acc. induction l as [|x l IH]; intros acc Hl Hacc Hs; cbn [fold_left].
  - rewrite app_nil_r. split; [exact Hs | reflexivity].
  - inversion Hl as [|? ? Hx Hl']; subst.
    assert (Hacc' : Forall well_dated (insert_by sortCompare x acc)).
    { apply (Permutation_Forall (insert_by_perm sortCompare x acc)).
      constructor; assumption. }
    destruct (IH (insert_by sortCompare x acc) Hl' Hacc'
                 (insert_sorted x acc Hx Hacc Hs)) as [Hsort Hfilt].
    split; [exact Hsort|].
    rewrite Hfilt, insert_filter by assumption.
    rewrite <- app_assoc. f_equal. cbn.
    destruct (same_key (release_key x) k); reflexivity.
Qed.

Lemma well_datedb_all (l : list Movie) :
  forallb well_datedb l = true -> Forall well_dated l.
Proof.
  intros H. apply Forall_forall. intros m Hm Hn.
  rewrite forallb_forall in H. specialize (H m Hm).
  unfold well_datedb in H. rewrite Hn in H. cbn in H.
  destruct (getTime (releaseString m)); [discriminate | discriminate H].
Qed.

(** ** C6 *)

(** C6: when a non-empty query gets a results list whose present release
    dates are dates, [searchMovies] returns the filtered results reordered:
    every item comes before the later ones by [release_before] (newer
    release first, items without a release date last), and the items of
    each release date, and those without one, keep their original relative
    order. *)
Theorem searchMovies_release_order :
  forall net q w resp rs,
    String.eqb (trim q) "" = false ->
    net_list net (length (requests w)) (searchRequest (trim q)) = Normal resp ->
    results resp = Some rs ->
    Forall well_dated (filterResults (trim q) rs) ->
    exists out,
      snd (searchMovies net q w) = Normal out /\
      Permutation (filterResults (trim q) rs) out /\
      StronglySorted release_before out /\
      forall k, filter (fun m => same_key (release_key m) k) out
                = filter (fun m => same_key (release_key m) k) (filterResults (trim q) rs).
Proof.
  intros net q w resp rs Hq Hreply Hres Hwd.
  unfold searchMovies, bind, runInAction, try_catch, issue, ret, throw.
  cbn beta iota zeta delta [requests store].
  rewrite Hq. cbn beta iota zeta delta [requests store].
  rewrite Hreply. cbn beta iota zeta.
  rewrite Hres. cbn beta iota zeta delta [snd].
  eexists. split; [reflexivity|].
  fold (filterResults (trim q) rs).
  split; [apply array_sort_perm|].
  split.
  - apply (array_sort_facts_acc None); [exact Hwd | constructor | constructor].
  - intros k. unfold array_sort.
    destruct (array_sort_facts_acc k (filterResults (trim q) rs) [] Hwd
                (Forall_nil _) (SSorted_nil _)) as [_ H].
    exact H.
Qed.

(** The specification's example: the three "ca" results come out as
    Captain America (2011), Casino (1995), Cars (no date). *)
Example searchMovies_example_order :
  snd (searchMovies (netReturning exampleResults) "ca" startWorld)
  = Normal [movie 1 "Captain America" (Some "2011-07-22");
            movie 3 "Casino" (Some "1995-11-22"); movie 2 "Cars" (Some "")].
Proof. vm_compute. reflexivity. Qed.

Lemma searchMovies_release_order_witness :
  (String.eqb (trim "ca") "" = false /\
   net_list (netReturning exampleResults) (length (requests startWorld))
            (searchRequest (trim "ca"))
     = Normal (listResponse exampleResults) /\
   results (listResponse exampleResults) = Some exampleResults /\
   Forall well_dated (filterResults (trim "ca") exampleResults)) /\
  exists out,
    snd (searchMovies (netReturning exampleResults) "ca" startWorld) = Normal out /\
    Permutation (filterResults (trim "ca") exampleResults) out /\
    StronglySorted release_before out /\
    forall k, filter (fun m => same_key (release_key m) k) out
              = filter (fun m => same_key (release_key m) k)
                       (filterResults (trim "ca") exampleResults).
Proof.
  assert (Hwd : Forall well_dated (filterResults (trim "ca") exampleResults)).
  { apply well_datedb_all. vm_compute. reflexivity. }
  assert (Hq : String.eqb (trim "ca") "" = false) by (vm_compute; reflexivity).
  assert (Hreply : net_list (netReturning exampleResults) (length (requests startWorld))
                            (searchRequest (trim "ca"))
                   = Normal (listResponse exampleResults)) by (vm_compute; reflexivity).
  assert (Hres : results (listResponse exampleResults) = Some exampleResults)
    by (vm_compute; reflexivity).
  split; [exact (conj Hq (conj Hreply (conj Hres Hwd)))|].
  exact (searchMovies_release_order (netReturning exampleResults) "ca" startWorld
           (listResponse exampleResults) exampleResults Hq Hreply Hres Hwd).
Defined.

Lemma watchlist_mutations_on_confirmation_witness :
  NoDup (map id (watchlistMovies (store startWorld))) /\
    (let '(w', r) := addToWatchlist (netReturning []) (movie 1 "X" None) startWorld in
     if isInWatchlist (id (movie 1 "X" None)) (store startWorld) then r = Normal false /\ w' = startWorld
     else length (requests w') = S (length (requests startWorld)) /\
          match net_post (netReturning []) (length (requests startWorld)) (watchlistRequest (id (movie 1 "X" None)) true) with
          | Normal d =>
              if truthy (success_of d) then
                r = Normal true /\
                store w' = set_watchlistMovies (watchlistMovies (store startWorld) ++ [(movie 1 "X" None)]) (store startWorld) /\
                length (watchlistMovies (store w')) = S (length (watchlistMovies (store startWorld))) /\
                NoDup (map id (watchlistMovies (store w')))
              else r = Normal false /\ store w' = store startWorld
          | Thrown _ => r = Normal false /\ store w' = store startWorld
          end) /\
    (let '(w', r) := removeFromWatchlist (netReturning []) 1 startWorld in
     if isInWatchlist 1 (store startWorld) then
       length (requests w') = S (length (requests startWorld)) /\
       match net_post (netReturning []) (length (requests startWorld)) (watchlistRequest 1 false) with
       | Normal d =>
           if truthy (success_of d) then
             r = Normal true /\
             store w' = set_watchlistMovies
                          (filter (fun movie => negb (id movie =? 1))
                             (watchlistMovies (store startWorld))) (store startWorld) /\
             S (length (watchlistMovies (store w'))) = length (watchlistMovies (store startWorld)) /\
             isInWatchlist 1 (store w') = false /\
             NoDup (map id (watchlistMovies (store w')))
           else r = Normal false /\ store w' = store startWorld
       | Thrown _ => r = Normal false /\ store w' = store startWorld
       end
     else r = Normal false /\ w' = startWorld).
Proof.
  assert (Hnd : NoDup (map id (watchlistMovies (store startWorld)))) by (cbn; constructor).
  split; [exact Hnd|].
  exact (watchlist_mutations_on_confirmation (netReturning []) (movie 1 "X" None) 1
           startWorld Hnd).
Defined.

(** ** C5 *)

(** C5: the code splits the trimmed, lowercased query on single spaces, so
    a query with two consecutive spaces such as "iron  man" yields an empty
    term, which is a substring of every title: [searchMovies] keeps "Cars",
    whereas splitting on white space gives the terms "iron" and "man", which
    neither "cars" nor its initials contain, so the item is dropped. *)
Theorem searchMovies_double_space_matches_all :
  snd (searchMovies (netReturning [movie 2 "Cars" None]) "iron  man" startWorld)
    = Normal [movie 2 "Cars" None] /\
  filter (specMatches "iron  man") [movie 2 "Cars" None] = [].
Proof. split; vm_compute; reflexivity. Qed.

(* ================================================================== *)
(** * Further properties of the store *)

Ltac run_more := unfold getUserProfile, loadWatchlist in *; run_store.

Lemma errorMessage_nonempty (e : Exn) : errorMessage e <> ""%string.
Proof.
  destruct e as [m st | | m]; cbn; try discriminate.
  destruct (String.eqb m "") eqn:E; [discriminate|].
  intros ->. cbn in E. discriminate E.
Qed.

Lemma trim_start_empty (s : string) :
  trim_start s = ""%string -> forallb is_ws (list_ascii_of_string s) = true.
Proof.
  induction s as [|c s IH]; cbn; [reflexivity|].
  intros H. destruct (is_ws c); [exact (IH H) | discriminate H].
Qed.

Lemma reverse_string_empty (s : string) : reverse_string s = ""%string -> s = ""%string.
Proof.
  unfold reverse_string. destruct s as [|c s]; [reflexivity|]. cbn.
  destruct (rev (list_ascii_of_string s) ++ [c]) eqn:E; [|discriminate].
  apply app_eq_nil in E. destruct E as [_ E]. discriminate E.
Qed.

(** A string whose first character is not white space is not blank. *)
Lemma trim_nonblank (c : ascii) (rest : string) :
  is_ws c = false -> String.eqb (trim (String c rest)) "" = false.
Proof.
  intros Hc. unfold trim.
  assert (H0 : trim_start (String c rest) = String c rest) by (cbn; rewrite Hc; reflexivity).
  rewrite H0. destruct (String.eqb _ _) eqn:E; [|reflexivity].
  apply String.eqb_eq, reverse_string_empty, trim_start_empty in E.
  unfold reverse_string in E. rewrite list_ascii_of_string_of_list_ascii in E.
  rewrite forallb_forall in E. specialize (E c). rewrite <- in_rev in E.
  cbn in E. rewrite Hc in E. discriminate (E (or_introl eq_refl)).
Qed.

Lemma prefix_http_shape (q : string) :
  String.prefix "http" q = true -> exists rest, q = String "h" rest.
Proof.
  destruct q as [|c rest]; [discriminate|].
  intros H. cbn [String.prefix] in H.
  destruct (ascii_dec "h" c) as [E|E]; [subst c; eauto | discriminate H].
Qed.

Lemma prefix_empty (s : string) : String.prefix "" s = true.
Proof. destruct s; reflexivity. Qed.

Lemma getPosterUrl_http (p : option string) (size : PosterSize) :
  String.prefix "http" (getPosterUrl p size) = true.
Proof.
  destruct p as [p|]; [|reflexivity]. unfold getPosterUrl.
  destruct (String.eqb p "" || String.eqb (trim p) ""); [reflexivity|].
  destruct (String.prefix "http" p) eqn:E; [exact E | reflexivity].
Qed.

Lemma getPosterUrl_fixed (q : string) (size : PosterSize) :
  String.prefix "http" q = true -> getPosterUrl (Some q) size = q.
Proof.
  intros H. destruct (prefix_http_shape q H) as [rest ->].
  unfold getPosterUrl. rewrite (trim_nonblank "h" rest) by reflexivity.
  rewrite H. reflexivity.
Qed.

Lemma filter_keep_absent (l : list Movie) (i : Z) :
  existsb (fun m => id m =? i) l = false ->
  filter (fun movie => negb (id movie =? i)) l = l.
Proof.
  induction l as [|x l IH]; cbn; [reflexivity|].
  destruct (id x =? i); cbn; [discriminate|]. intros H. f_equal. exact (IH H).
Qed.

Lemma find_app_absent (l : list Movie) (m : Movie) :
  existsb (fun x => id x =? id m) l = false ->
  find (fun x => id x =? id m) (l ++ [m]) = Some m.
Proof.
  induction l as [|x l IH]; cbn.
  - rewrite Z.eqb_refl. reflexivity.
  - destruct (id x =? id m); cbn; [discriminate | exact IH].
Qed.

Lemma set_watchlistMovies_same (s : Store) :
  set_watchlistMovies (watchlistMovies s) s = s.
Proof. destruct s; reflexivity. Qed.

(** An accepted add followed by an accepted remove of the same id. *)
Lemma add_remove_run net m w d1 d2 :
  isInWatchlist (id m) (store w) = false ->
  net_post net (length (requests w)) (watchlistRequest (id m) true) = Normal d1 ->
  truthy (success_of d1) = true ->
  net_post net (S (length (requests w))) (watchlistRequest (id m) false) = Normal d2 ->
  truthy (success_of d2) = true ->
  exists w1,
    addToWatchlist net m w = (w1, Normal true) /\
    isInWatchlist (id m) (store w1) = true /\
    removeFromWatchlist net (id m) w1 = ({| store := store w; requests := requests w1 ++
        [(watchlistRequest (id m) false, store w1)] |}, Normal true) /\
    length (requests w1) = S (length (requests w)).
Proof.
  intros Hin H1 T1 H2 T2.
  unfold addToWatchlist, bind, get_store. rewrite Hin.
  unfold try_catch, issue, runInAction, ret. cbn beta iota zeta delta [store requests].
  rewrite H1, T1. cbn beta iota zeta delta [store requests].
  eexists. split; [reflexivity|]. split.
  - unfold isInWatchlist in *. cbn [store watchlistMovies set_watchlistMovies].
    rewrite existsb_app, Hin. cbn. rewrite Z.eqb_refl. reflexivity.
  - split; [|cbn [requests]; rewrite length_app; cbn; lia].
    unfold removeFromWatchlist, bind, get_store.
    cbn [store watchlistMovies set_watchlistMovies].
    unfold isInWatchlist in Hin. rewrite (find_app_absent _ _ Hin).
    unfold try_catch, issue, runInAction, ret. cbn beta iota zeta delta [store requests].
    rewrite length_app, Nat.add_1_r, H2, T2. cbn beta iota zeta delta [store requests].
    f_equal. f_equal.
    cbn [set_watchlistMovies watchlistMovies].
    rewrite filter_app, filter_keep_absent by exact Hin. cbn. rewrite Z.eqb_refl. cbn.
    rewrite app_nil_r. destruct (store w); reflexivity.
Qed.

Lemma toggle_absent net m w :
  isInWatchlist (id m) (store w) = false -> toggleWatchlist net m w = addToWatchlist net m w.
Proof. intros H. unfold toggleWatchlist, bind, get_store. rewrite H. reflexivity. Qed.

Lemma toggle_present net m w :
  isInWatchlist (id m) (store w) = true ->
  toggleWatchlist net m w =
  match removeFromWatchlist net (id m) w with
  | (w', Normal removed) => (w', Normal (negb removed))
  | (w', Thrown e) => (w', Thrown e)
  end.
Proof. intros H. unfold toggleWatchlist, bind, get_store. rewrite H. reflexivity. Qed.

(** ** X1 *)

(** X1: [getPosterUrl] always returns a string starting with "http", and
    is idempotent: a URL it returned, passed back in with any size, comes
    back unchanged. *)
Theorem getPosterUrl_idempotent :
  forall p size size',
    String.prefix "http" (getPosterUrl p size) = true /\
    getPosterUrl (Some (getPosterUrl p size)) size' = getPosterUrl p size.
Proof.
  intros p size size'. split; [apply getPosterUrl_http|].
  apply getPosterUrl_fixed, getPosterUrl_http.
Qed.

(** ** X2 *)

(** X2: for a non-blank relative poster path that does not start with
    "http" or "/", [getPosterUrl] gives the same URL as for the path with a
    leading "/". *)
Theorem getPosterUrl_leading_slash :
  forall p size,
    String.eqb (trim p) "" = false ->
    String.prefix "http" p = false ->
    String.prefix "/" p = false ->
    getPosterUrl (Some p) size = getPosterUrl (Some ("/" ++ p)%string) size.
Proof.
  intros p size Ht Hh Hs.
  assert (Hp : String.eqb p "" = false)
    by (destruct p; [vm_compute in Ht; discriminate Ht | reflexivity]).
  unfold getPosterUrl. rewrite Hp, Ht, Hh, Hs.
  change (("/" ++ p)%string) with (String "/" p).
  rewrite (trim_nonblank "/" p) by reflexivity.
  cbn. rewrite (prefix_empty p). reflexivity.
Qed.

(** ** X3 *)

(** X3: [getUserProfile] issues one request, seen with [loading.profile]
    true and [error.profile] null, and leaves [loading.profile] false; on
    success it stores and returns the profile, on failure it returns null,
    keeps the previous profile and records the error message; the category
    slots, the collections and the detail slot are left as they were. *)
Theorem getUserProfile_outcome :
  forall profileNet w,
    let '(w', r) := getUserProfile profileNet w in
    requests w' = requests w ++ [(profileRequest, markLoading profile (store w))] /\
    loading (markLoading profile (store w)) profile = true /\
    error (markLoading profile (store w)) profile = None /\
    loading (store w') profile = false /\
    (forall c, loading (store w') (Cat c) = loading (store w) (Cat c) /\
               error (store w') (Cat c) = error (store w) (Cat c)) /\
    nowPlayingMovies (store w') = nowPlayingMovies (store w) /\
    upcomingMovies (store w') = upcomingMovies (store w) /\
    popularMovies (store w') = popularMovies (store w) /\
    watchlistMovies (store w') = watchlistMovies (store w) /\
    currentMovieDetail (store w') = currentMovieDetail (store w) /\
    match profileNet (length (requests w)) profileRequest with
    | Normal p => r = Normal (Some p) /\ userProfile (store w') = Some p /\
                  error (store w') profile = None
    | Thrown e => r = Normal None /\ userProfile (store w') = userProfile (store w) /\
                  error (store w') profile = Some (errorMessage e)
    end.
Proof.
  intros profileNet w. run_more.
  destruct (profileNet _ _) as [p|e]; cbn;
    (split; [reflexivity|]); (split; [reflexivity|]); (split; [reflexivity|]);
    (split; [reflexivity|]); (split; [intros []; split; reflexivity|]);
    repeat split.
Qed.

(** ** X4 *)

(** X4: [fetchMoviesByCategory] with the category [popular] or [search]
    issues no request and never rejects: it only sets that category's
    loading flag to false and its error to "Unknown error". *)
Theorem fetchMoviesByCategory_invalid_category :
  forall net today c pg w,
    c = popular \/ c = search ->
    fetchMoviesByCategory net today c pg w =
    ({| store := markFailed (Cat c) "Unknown error" (markLoading (Cat c) (store w));
        requests := requests w |}, Normal tt).
Proof. intros net today c pg w [-> | ->]; reflexivity. Qed.

(** ** X5 *)

(** X5: for [now_playing] and [upcoming], [fetchMoviesByCategory] issues
    exactly the category's request, seen with the category's slots marked
    loading; on a reply carrying results it replaces the category's
    collection and its [currentPage] and [totalPages] with the reply's and
    clears the error; on a rejection or a reply without results it keeps the
    collection and the pagination and records a non-empty error message;
    the other collections are never touched. *)
Theorem fetchMoviesByCategory_outcome :
  forall net today c pg w,
    c = now_playing \/ c = upcoming ->
    let movies := fun s => match c with
                           | now_playing => nowPlayingMovies s
                           | _ => upcomingMovies s
                           end in
    let others := fun s => match c with
                           | now_playing => upcomingMovies s
                           | _ => nowPlayingMovies s
                           end in
    let '(w', r) := fetchMoviesByCategory net today c pg w in
    match categoryRequest today c pg with
    | None => False
    | Some req =>
        r = Normal tt /\
        requests w' = requests w ++ [(req, markLoading (Cat c) (store w))] /\
        others (store w') = others (store w) /\
        popularMovies (store w') = popularMovies (store w) /\
        watchlistMovies (store w') = watchlistMovies (store w) /\
        match net_list net (length (requests w)) req with
        | Normal resp =>
            match results resp with
            | Some rs =>
                movies (store w') = rs /\ currentPage (store w') c = page resp /\
                totalPages (store w') c = total_pages resp /\
                error (store w') (Cat c) = None
            | None =>
                movies (store w') = movies (store w) /\
                currentPage (store w') c = currentPage (store w) c /\
                totalPages (store w') c = totalPages (store w) c /\
                error (store w') (Cat c) = Some "Unknown error"
            end
        | Thrown e =>
            movies (store w') = movies (store w) /\
            currentPage (store w') c = currentPage (store w) c /\
            totalPages (store w') c = totalPages (store w) c /\
            error (store w') (Cat c) = Some (errorMessage e) /\ errorMessage e <> ""%string
        end
    end.
Proof.
  intros net today c pg w Hc movies others.
  destruct Hc as [-> | ->]; unfold movies, others; clear movies others;
    unfold fetchMoviesByCategory;
    destruct (categoryRequest today _ pg) as [req|] eqn:Hreq;
    try (cbn in Hreq; discriminate Hreq); clear Hreq;
    run_store;
    destruct (net_list net _ req) as [resp|e]; try destruct (results resp) as [rs|]; cbn;
    repeat split; apply errorMessage_nonempty.
Qed.

(** ** X6 *)

(** X6: [fetchPopularMoviesSorted sortBy] issues one request for page 1
    sorted by [sortBy] and never rejects; on a reply carrying results it
    replaces [popularMovies] and clears the error; on a rejection or a reply
    without results it keeps [popularMovies] and records the fixed message
    "Failed to fetch sorted movies"; it never changes the pagination or the
    other collections. *)
Theorem fetchPopularMoviesSorted_outcome :
  forall net sortBy w,
    let '(w', r) := fetchPopularMoviesSorted net sortBy w in
    r = Normal tt /\
    requests w' = requests w ++ [(popularSortedRequest sortBy,
                                  markLoading (Cat popular) (store w))] /\
    loading (store w') (Cat popular) = false /\
    currentPage (store w') = currentPage (store w) /\
    totalPages (store w') = totalPages (store w) /\
    nowPlayingMovies (store w') = nowPlayingMovies (store w) /\
    upcomingMovies (store w') = upcomingMovies (store w) /\
    watchlistMovies (store w') = watchlistMovies (store w) /\
    match net_list net (length (requests w)) (popularSortedRequest sortBy) with
    | Normal resp =>
        match results resp with
        | Some rs => popularMovies (store w') = rs /\ error (store w') (Cat popular) = None
        | None => popularMovies (store w') = popularMovies (store w) /\
                  error (store w') (Cat popular) = Some "Failed to fetch sorted movies"
        end
    | Thrown _ => popularMovies (store w') = popularMovies (store w) /\
                  error (store w') (Cat popular) = Some "Failed to fetch sorted movies"
    end.
Proof.
  intros net sortBy w. run_store.
  destruct (net_list net _ _) as [resp|e]; try destruct (results resp) as [rs|]; cbn;
    repeat split.
Qed.

(** ** X7 *)

(** X7: [fetchWatchlist] issues one request and never rejects, and the list
    it returns is always the watchlist the store holds once it settles: the
    reply's results (an empty list when the reply carries none) on success,
    the previous local watchlist on failure. *)
Theorem fetchWatchlist_returns_store_watchlist :
  forall net pg sortBy w,
    let '(w', r) := fetchWatchlist net pg sortBy w in
    r = Normal (watchlistMovies (store w')) /\
    requests w' = requests w ++ [(watchlistPageRequest pg sortBy,
                                  markLoading (Cat search) (store w))] /\
    match net_list net (length (requests w)) (watchlistPageRequest pg sortBy) with
    | Normal resp =>
        watchlistMovies (store w') = match results resp with Some rs => rs | None => [] end
    | Thrown _ => watchlistMovies (store w') = watchlistMovies (store w)
    end.
Proof.
  intros net pg sortBy w. run_store.
  destruct (net_list net _ _) as [resp|e]; try destruct (results resp) as [rs|]; cbn;
    repeat split.
Qed.

(** ** X8 *)

(** X8: [loadWatchlist sortBy] requests only page 1 of the watchlist and
    never rejects; afterwards [isInWatchlist i] holds exactly when an item
    of that first page has id [i] (none when the reply carries no results),
    and is unchanged when the request fails. *)
Theorem loadWatchlist_membership :
  forall net sortBy w,
    let '(w', r) := loadWatchlist net sortBy w in
    r = Normal tt /\
    requests w' = requests w ++ [(watchlistPageRequest 1 sortBy,
                                  markLoading (Cat search) (store w))] /\
    forall i,
      isInWatchlist i (store w') =
      match net_list net (length (requests w)) (watchlistPageRequest 1 sortBy) with
      | Normal resp =>
          existsb (fun m => id m =? i) (match results resp with Some rs => rs | None => [] end)
      | Thrown _ => isInWatchlist i (store w)
      end.
Proof.
  intros net sortBy w. run_more.
  destruct (net_list net _ _) as [resp|e]; try destruct (results resp) as [rs|]; cbn;
    (split; [reflexivity|]); (split; [reflexivity|]); intros i; reflexivity.
Qed.

(** ** X9 *)

(** X9: adding an item that is not in the watchlist and then removing its
    id, with the server accepting both requests, returns true twice, issues
    two requests and gives back exactly the store it started from. *)
Theorem add_then_remove_restores_store :
  forall net m w d1 d2,
    isInWatchlist (id m) (store w) = false ->
    net_post net (length (requests w)) (watchlistRequest (id m) true) = Normal d1 ->
    truthy (success_of d1) = true ->
    net_post net (S (length (requests w))) (watchlistRequest (id m) false) = Normal d2 ->
    truthy (success_of d2) = true ->
    let '(w1, r1) := addToWatchlist net m w in
    let '(w2, r2) := removeFromWatchlist net (id m) w1 in
    r1 = Normal true /\ r2 = Normal true /\ store w2 = store w /\
    length (requests w2) = S (S (length (requests w))).
Proof.
  intros net m w d1 d2 Hin H1 T1 H2 T2.
  destruct (add_remove_run net m w d1 d2 Hin H1 T1 H2 T2) as [w1 [Ha [_ [Hr Hl]]]].
  rewrite Ha, Hr. cbn. rewrite length_app, Hl. cbn. repeat split. lia.
Qed.

(** ** X10 *)

(** X10: toggling an item that is not in the watchlist twice, with the
    server accepting both requests, returns true (added) and then false
    (removed) and gives back exactly the store it started from. *)
Theorem toggle_twice_restores_store :
  forall net m w d1 d2,
    isInWatchlist (id m) (store w) = false ->
    net_post net (length (requests w)) (watchlistRequest (id m) true) = Normal d1 ->
    truthy (success_of d1) = true ->
    net_post net (S (length (requests w))) (watchlistRequest (id m) false) = Normal d2 ->
    truthy (success_of d2) = true ->
    let '(w1, r1) := toggleWatchlist net m w in
    let '(w2, r2) := toggleWatchlist net m w1 in
    r1 = Normal true /\ r2 = Normal false /\ store w2 = store w.
Proof.
  intros net m w d1 d2 Hin H1 T1 H2 T2.
  destruct (add_remove_run net m w d1 d2 Hin H1 T1 H2 T2) as [w1 [Ha [Hin1 [Hr _]]]].
  rewrite (toggle_absent net m w Hin), Ha.
  rewrite (toggle_present net m w1 Hin1), Hr. cbn. repeat split.
Qed.

(** ** X11 *)

(** X11: a query that is blank after trimming makes [searchMovies] return
    the empty list without any request, leaving [loading.search] false and
    [error.search] null. *)
Theorem searchMovies_blank_query :
  forall net q w,
    String.eqb (trim q) "" = true ->
    searchMovies net q w =
    ({| store := set_loading (Cat search) false (markLoading (Cat search) (store w));
        requests := requests w |}, Normal []).
Proof.
  intros net q w H.
  unfold searchMovies, bind, try_catch, runInAction, ret.
  cbn beta iota zeta delta [store requests]. rewrite H. reflexivity.
Qed.

(** ** X12 *)

(** X12: for a non-blank query, [searchMovies] issues one request, never
    rejects and leaves [loading.search] false; on a reply carrying results
    it returns a reordering of exactly the results that pass the filter,
    whatever their release dates, and clears the error; on a reply without
    results or a rejection it returns the empty list and records the error
    message. *)
Theorem searchMovies_outcome :
  forall net q w,
    String.eqb (trim q) "" = false ->
    let '(w', r) := searchMovies net q w in
    requests w' = requests w ++ [(searchRequest (trim q), markLoading (Cat search) (store w))] /\
    loading (store w') (Cat search) = false /\
    match net_list net (length (requests w)) (searchRequest (trim q)) with
    | Normal resp =>
        match results resp with
        | Some rs => (exists out, r = Normal out /\ Permutation (filterResults (trim q) rs) out) /\
                     error (store w') (Cat search) = None
        | None => r = Normal [] /\ error (store w') (Cat search) = Some "Unknown error"
        end
    | Thrown e => r = Normal [] /\ error (store w') (Cat search) = Some (errorMessage e)
    end.
Proof.
  intros net q w Hq.
  unfold searchMovies, bind, runInAction, try_catch, issue, ret, throw.
  cbn beta iota zeta delta [requests store].
  rewrite Hq. cbn beta iota zeta delta [requests store].
  destruct (net_list net (length (requests w)) (searchRequest (trim q))) as [resp|e];
    [destruct (results resp) as [rs|]|]; cbn beta iota zeta delta [requests store fst snd];
    (split; [reflexivity|]); (split; [reflexivity|]); try (split; reflexivity).
  split; [|reflexivity].
  eexists. split; [reflexivity|].
  fold (filterResults (trim q) rs). apply array_sort_perm.
Qed.

(** ** X13 *)

(** X13: after [clearCache], each of [fetchNowPlayingMovies],
    [fetchUpcomingMovies] and [fetchPopularMovies] called without
    [forceRefresh] issues a request again. *)
Theorem clearCache_then_wrappers_refetch :
  forall net today w,
    let w1 := fst (clearCache w) in
    length (requests (fst (fetchNowPlayingMovies net today false w1))) = S (length (requests w)) /\
    length (requests (fst (fetchUpcomingMovies net today false w1))) = S (length (requests w)) /\
    length (requests (fst (fetchPopularMovies net false w1))) = S (length (requests w)).
Proof.
  intros net today w w1.
  assert (Hreq : requests w1 = requests w) by reflexivity.
  rewrite <- Hreq.
  split; [|split];
    [apply fetchNowPlayingMovies_first | apply fetchUpcomingMovies_first
    | apply fetchPopularMovies_first]; reflexivity.
Qed.

Lemma getPosterUrl_leading_slash_witness :
  (String.eqb (trim "poster.jpg") "" = false /\
   String.prefix "http" "poster.jpg" = false /\
   String.prefix "/" "poster.jpg" = false) /\
    getPosterUrl (Some "poster.jpg") medium = getPosterUrl (Some ("/" ++ "poster.jpg")%string) medium.
Proof.
  assert (H1 : String.eqb (trim "poster.jpg") "" = false)
    by (first [left; reflexivity | vm_compute; reflexivity]).
  assert (H2 : String.prefix "http" "poster.jpg" = false)
    by (first [left; reflexivity | vm_compute; reflexivity]).
  assert (H3 : String.prefix "/" "poster.jpg" = false)
    by (first [left; reflexivity | vm_compute; reflexivity]).
  split; [exact (conj H1 (conj H2 H3))|].
  exact (getPosterUrl_leading_slash "poster.jpg" medium H1 H2 H3).
Defined.

Lemma fetchMoviesByCategory_invalid_category_witness :
  (popular = popular \/ popular = search) /\
    fetchMoviesByCategory (netReturning []) ({| year := 2025; month := 3; day := 14 |}) popular 1 startWorld =
    ({| store := markFailed (Cat popular) "Unknown error" (markLoading (Cat popular) (store startWorld));
        requests := requests startWorld |}, Normal tt).
Proof.
  assert (H1 : popular = popular \/ popular = search)
    by (first [left; reflexivity | vm_compute; reflexivity]).
  split; [exact H1|].
  exact (fetchMoviesByCategory_invalid_category (netReturning []) ({| year := 2025; month := 3; day := 14 |}) popular 1 startWorld H1).
Defined.

Lemma fetchMoviesByCategory_outcome_witness :
  (now_playing = now_playing \/ now_playing = upcoming) /\
    let movies := fun s => match now_playing with
                           | now_playing => nowPlayingMovies s
                           | _ => upcomingMovies s
                           end in
    let others := fun s => match now_playing with
                           | now_playing => upcomingMovies s
                           | _ => nowPlayingMovies s
                           end in
    let '(w', r) := fetchMoviesByCategory (netReturning exampleResults) ({| year := 2025; month := 3; day := 14 |}) now_playing 1 startWorld in
    match categoryRequest ({| year := 2025; month := 3; day := 14 |}) now_playing 1 with
    | None => False
    | Some req =>
        r = Normal tt /\
        requests w' = requests startWorld ++ [(req, markLoading (Cat now_playing) (store startWorld))] /\
        others (store w') = others (store startWorld) /\
        popularMovies (store w') = popularMovies (store startWorld) /\
        watchlistMovies (store w') = watchlistMovies (store startWorld) /\
        match net_list (netReturning exampleResults) (length (requests startWorld)) req with
        | Normal resp =>
            match results resp with
            | Some rs =>
                movies (store w') = rs /\ currentPage (store w') now_playing = page resp /\
                totalPages (store w') now_playing = total_pages resp /\
                error (store w') (Cat now_playing) = None
            | None =>
                movies (store w') = movies (store startWorld) /\
                currentPage (store w') now_playing = currentPage (store startWorld) now_playing /\
                totalPages (store w') now_playing = totalPages (store startWorld) now_playing /\
                error (store w') (Cat now_playing) = Some "Unknown error"
            end
        | Thrown e =>
            movies (store w') = movies (store startWorld) /\
            currentPage (store w') now_playing = currentPage (store startWorld) now_playing /\
            totalPages (store w') now_playing = totalPages (store startWorld) now_playing /\
            error (store w') (Cat now_playing) = Some (errorMessage e) /\ errorMessage e <> ""%string
        end
    end.
Proof.
  assert (H1 : now_playing = now_playing \/ now_playing = upcoming)
    by (first [left; reflexivity | vm_compute; reflexivity]).
  split; [exact H1|].
  exact (fetchMoviesByCategory_outcome (netReturning exampleResults) ({| year := 2025; month := 3; day := 14 |}) now_playing 1 startWorld H1).
Defined.

Lemma add_then_remove_restores_store_witness :
  (isInWatchlist (id (movie 1 "X" None)) (store startWorld) = false /\
   net_post (netReturning []) (length (requests startWorld)) (watchlistRequest (id (movie 1 "X" None)) true) = Normal (Some (JBool true)) /\
   truthy (success_of (Some (JBool true))) = true /\
   net_post (netReturning []) (S (length (requests startWorld))) (watchlistRequest (id (movie 1 "X" None)) false) = Normal (Some (JBool true)) /\
   truthy (success_of (Some (JBool true))) = true) /\
    let '(w1, r1) := addToWatchlist (netReturning []) (movie 1 "X" None) startWorld in
    let '(w2, r2) := removeFromWatchlist (netReturning []) (id (movie 1 "X" None)) w1 in
    r1 = Normal true /\ r2 = Normal true /\ store w2 = store startWorld /\
    length (requests w2) = S (S (length (requests startWorld))).
Proof.
  assert (H1 : isInWatchlist (id (movie 1 "X" None)) (store startWorld) = false)
    by (first [left; reflexivity | vm_compute; reflexivity]).
  assert (H2 : net_post (netReturning []) (length (requests startWorld)) (watchlistRequest (id (movie 1 "X" None)) true) = Normal (Some (JBool true)))
    by (first [left; reflexivity | vm_compute; reflexivity]).
  assert (H3 : truthy (success_of (Some (JBool true))) = true)
    by (first [left; reflexivity | vm_compute; reflexivity]).
  assert (H4 : net_post (netReturning []) (S (length (requests startWorld))) (watchlistRequest (id (movie 1 "X" None)) false) = Normal (Some (JBool true)))
    by (first [left; reflexivity | vm_compute; reflexivity]).
  assert (H5 : truthy (success_of (Some (JBool true))) = true)
    by (first [left; reflexivity | vm_compute; reflexivity]).
  split; [exact (conj H1 (conj H2 (conj H3 (conj H4 H5))))|].
  exact (add_then_remove_restores_store (netReturning []) (movie 1 "X" None) startWorld (Some (JBool true)) (Some (JBool true)) H1 H2 H3 H4 H5).
Defined.

Lemma toggle_twice_restores_store_witness :
  (isInWatchlist (id (movie 1 "X" None)) (store startWorld) = false /\
   net_post (netReturning []) (length (requests startWorld)) (watchlistRequest (id (movie 1 "X" None)) true) = Normal (Some (JBool true)) /\
   truthy (success_of (Some (JBool true))) = true /\
   net_post (netReturning []) (S (length (requests startWorld))) (watchlistRequest (id (movie 1 "X" None)) false) = Normal (Some (JBool true)) /\
   truthy (success_of (Some (JBool true))) = true) /\
    let '(w1, r1) := toggleWatchlist (netReturning []) (movie 1 "X" None) startWorld in
    let '(w2, r2) := toggleWatchlist (netReturning []) (movie 1 "X" None) w1 in
    r1 = Normal true /\ r2 = Normal false /\ store w2 = store startWorld.
Proof.
  assert (H1 : isInWatchlist (id (movie 1 "X" None)) (store startWorld) = false)
    by (first [left; reflexivity | vm_compute; reflexivity]).
  assert (H2 : net_post (netReturning []) (length (requests startWorld)) (watchlistRequest (id (movie 1 "X" None)) true) = Normal (Some (JBool true)))
    by (first [left; reflexivity | vm_compute; reflexivity]).
  assert (H3 : truthy (success_of (Some (JBool true))) = true)
    by (first [left; reflexivity | vm_compute; reflexivity]).
  assert (H4 : net_post (netReturning []) (S (length (requests startWorld))) (watchlistRequest (id (movie 1 "X" None)) false) = Normal (Some (JBool true)))
    by (first [left; reflexivity | vm_compute; reflexivity]).
  assert (H5 : truthy (success_of (Some (JBool true))) = true)
    by (first [left; reflexivity | vm_compute; reflexivity]).
  split; [exact (conj H1 (conj H2 (conj H3 (conj H4 H5))))|].
  exact (toggle_twice_restores_store (netReturning []) (movie 1 "X" None) startWorld (Some (JBool true)) (Some (JBool true)) H1 H2 H3 H4 H5).
Defined.

Lemma searchMovies_blank_query_witness :
  (String.eqb (trim ("   ")) "" = true) /\
    searchMovies (netReturning exampleResults) ("   ") startWorld =
    ({| store := set_loading (Cat search) false (markLoading (Cat search) (store startWorld));
        requests := requests startWorld |}, Normal []).
Proof.
  assert (H1 : String.eqb (trim ("   ")) "" = true)
    by (first [left; reflexivity | vm_compute; reflexivity]).
  split; [exact H1|].
  exact (searchMovies_blank_query (netReturning exampleResults) ("   ") startWorld H1).
Defined.

Lemma searchMovies_outcome_witness :
  (String.eqb (trim "ca") "" = false) /\
    let '(w', r) := searchMovies (netReturning exampleResults) "ca" startWorld in
    requests w' = requests startWorld ++ [(searchRequest (trim "ca"), markLoading (Cat search) (store startWorld))] /\
    loading (store w') (Cat search) = false /\
    match net_list (netReturning exampleResults) (length (requests startWorld)) (searchRequest (trim "ca")) with
    | Normal resp =>
        match results resp with
        | Some rs => (exists out, r = Normal out /\ Permutation (filterResults (trim "ca") rs) out) /\
                     error (store w') (Cat search) = None
        | None => r = Normal [] /\ error (store w') (Cat search) = Some "Unknown error"
        end
    | Thrown e => r = Normal [] /\ error (store w') (Cat search) = Some (errorMessage e)
    end.
Proof.
  assert (H1 : String.eqb (trim "ca") "" = false)
    by (first [left; reflexivity | vm_compute; reflexivity]).
  split; [exact H1|].
  exact (searchMovies_outcome (netReturning exampleResults) "ca" startWorld H1).
Defined.

(** ** X14 *)

(** X14: in the earlier version of the store, [fetchPopularMovies] with
    [forceRefresh] issues one discover request for page 1 sorted by
    popularity and never rejects; on a reply carrying results it fills
    [popularMovies] and the popular pagination and clears the error; on a
    rejection or a reply without results it keeps [popularMovies] and
    records the error message. *)
Theorem variant_fetchPopularMovies_fills_popular :
  forall net today w,
    let req := discoverRequest
                 [("language", PStr "en-US"); ("page", PNum 1);
                  ("include_adult", PBool false); ("include_video", PBool false);
                  ("sort_by", PStr "popularity.desc")] in
    let '(w', r) := Variant003.fetchPopularMovies net today true w in
    r = Normal tt /\
    requests w' = requests w ++ [(req, markLoading (Cat popular) (store w))] /\
    loading (store w') (Cat popular) = false /\
    match net_list net (length (requests w)) req with
    | Normal resp =>
        match results resp with
        | Some rs =>
            popularMovies (store w') = rs /\ currentPage (store w') popular = page resp /\
            totalPages (store w') popular = total_pages resp /\
            error (store w') (Cat popular) = None
        | None => popularMovies (store w') = popularMovies (store w) /\
                  error (store w') (Cat popular) = Some "Unknown error"
        end
    | Thrown e => popularMovies (store w') = popularMovies (store w) /\
                  error (store w') (Cat popular) = Some (errorMessage e)
    end.
Proof.
  intros net today w req.
  unfold Variant003.fetchPopularMovies, Variant003.fetchMoviesByCategory; run_store.
  rewrite andb_false_r. cbn.
  destruct (net_list net _ _) as [resp|e]; try destruct (results resp) as [rs|]; cbn;
    repeat split.
Qed.

